(** * Multi-agent chat pipeline: dispatch and resolution core

    Shallow embedding of [src/multiagent/agent_coordinator.py] and
    [src/multiagent/multi_agent_chat_pipeline.py].

    Python values are dynamically typed: the registry is whatever
    [json.loads] returned, so it is modelled as a JSON value and every
    attribute access that Python would reject raises, as in the source.
    The functions that talk to the network run in a small monad that
    threads the outside world, collects a trace of the observable steps
    and propagates Python exceptions. *)

From Stdlib Require Import List String Ascii ZArith Bool Lia PrimFloat DecimalString.
Import ListNotations.
Local Open Scope list_scope.
Local Open Scope string_scope.

Set Implicit Arguments.
Local Set Warnings "-register-all".

(** ** Python values *)

Module Py.

(** A value produced by [json.loads], or built from such values. *)
Inductive pyval : Type :=
| PNone
| PBool (b : bool)
| PInt (z : Z)
| PFloat (f : float)
| PStr (s : string)
| PList (l : list pyval)
| PDict (kvs : list (string * pyval)).

(** [bool(v)], the test behind [if v] and [not v]. *)
Definition truthy (v : pyval) : bool :=
  match v with
  | PNone => false
  | PBool b => b
  | PInt z => negb (Z.eqb z 0)
  | PFloat f => negb (PrimFloat.eqb f PrimFloat.zero)
  | PStr s => negb (String.eqb s EmptyString)
  | PList l => match l with [] => false | _ :: _ => true end
  | PDict kvs => match kvs with [] => false | _ :: _ => true end
  end.

(** [type(v).__name__], as it appears in the interpreter's messages. *)
Definition type_name (v : pyval) : string :=
  match v with
  | PNone => "NoneType"
  | PBool _ => "bool"
  | PInt _ => "int"
  | PFloat _ => "float"
  | PStr _ => "str"
  | PList _ => "list"
  | PDict _ => "dict"
  end.

Definition is_dict (v : pyval) : bool :=
  match v with PDict _ => true | _ => false end.

(** Lookup in a [dict] with string keys. *)
Fixpoint lookup (k : string) (kvs : list (string * pyval)) : option pyval :=
  match kvs with
  | [] => None
  | (k', v) :: rest => if String.eqb k k' then Some v else lookup k rest
  end.

(** What the program reads of a [requests.Response]; [json_body] is what
    [response.json()] does: the decoded body, or the class and message of
    the decoding error it raises. *)
Record Response : Type := mkResponse {
  status_code : Z;
  text : string;
  json_body : pyval + (string * string)
}.

(** An exception in flight.  [requests] builds [HTTPError] only in
    [Response.raise_for_status], which attaches the response; every other
    exception is kept as its class name and its [str(e)]. *)
Inductive exn : Type :=
| HTTPError (r : Response)
| PyExc (cls : string) (msg : string).

Definition AttributeError (v : pyval) (attr : string) : exn :=
  PyExc "AttributeError"
        ("'" ++ type_name v ++ "' object has no attribute '" ++ attr ++ "'").

Definition result (A : Type) : Type := (A + exn)%type.

(** [v.get(k)] and [v.get(k, d)]: only a [dict] has the method. *)
Definition get (v : pyval) (k : string) (d : pyval) : result pyval :=
  match v with
  | PDict kvs => inl (match lookup k kvs with Some x => x | None => d end)
  | _ => inr (AttributeError v "get")
  end.

(** [v[0]] *)
Definition item0 (v : pyval) : result pyval :=
  match v with
  | PList (x :: _) => inl x
  | PList [] => inr (PyExc "IndexError" "list index out of range")
  | PStr (String c _) => inl (PStr (String c EmptyString))
  | PStr EmptyString => inr (PyExc "IndexError" "string index out of range")
  | PDict _ => inr (PyExc "KeyError" "0")
  | _ => inr (PyExc "TypeError"
                    ("'" ++ type_name v ++ "' object is not subscriptable"))
  end.

(** [v[k]] for a string key. *)
Definition item (v : pyval) (k : string) : result pyval :=
  match v with
  | PDict kvs =>
      match lookup k kvs with
      | Some x => inl x
      | None => inr (PyExc "KeyError" ("'" ++ k ++ "'"))
      end
  | PList _ =>
      inr (PyExc "TypeError" "list indices must be integers or slices, not str")
  | PStr _ => inr (PyExc "TypeError" "string indices must be integers, not 'str'")
  | _ => inr (PyExc "TypeError"
                    ("'" ++ type_name v ++ "' object is not subscriptable"))
  end.

(** [len(v)] *)
Definition len (v : pyval) : result nat :=
  match v with
  | PDict kvs => inl (List.length kvs)
  | PList l => inl (List.length l)
  | PStr s => inl (String.length s)
  | _ => inr (PyExc "TypeError"
                    ("object of type '" ++ type_name v ++ "' has no len()"))
  end.

(** [str(n)] for an [int]. *)
Definition str_of_int (z : Z) : string :=
  NilZero.string_of_int (Z.to_int z).

(** [s.rstrip('/')] *)
Fixpoint rstrip_slash (s : string) : string :=
  match s with
  | EmptyString => EmptyString
  | String c rest =>
      match rstrip_slash rest with
      | EmptyString => if Ascii.eqb c "/" then EmptyString
                       else String c EmptyString
      | r => String c r
      end
  end.

(** [l[-n:]] for a positive [n]: the last [n] items, or all of them. *)
Definition last_n {A : Type} (n : nat) (l : list A) : list A :=
  skipn (List.length l - n) l.

End Py.
Import Py.

(** ** The outside world

    What the program takes from its libraries and from the network.  The
    [json] codec and [str.strip] are functions of their argument; a POST
    depends on the world and changes it. *)

Class Env : Type := {
  World : Type;
  (** [json.loads]: the value, or the class and the message of the
      exception it raises: [JSONDecodeError] for text that is not JSON,
      but also [ValueError] for an integer over the digit limit and
      [RecursionError] for nesting too deep *)
  json_loads : string -> pyval + (string * string);
  (** [json.dumps] *)
  json_dumps : pyval -> string;
  (** [str.strip] with no argument *)
  str_strip : string -> string;
  (** [requests.post(url, json=payload, headers=headers)]: a response of
      any status, or a transport failure given by its class and message *)
  requests_post :
    string -> pyval -> list (string * string) -> World ->
    (Response + (string * string)) * World
}.

(** The steps of a dispatch that the properties below observe. *)
Inductive event : Type :=
| RegistryTest                                      (* [if not self.agent_configs] *)
| CallLLM (messages : list pyval) (model_id : pyval) (* entry of [_call_llm] *)
| HttpPost (url : string) (payload : pyval) (headers : list (string * string)).

Definition is_CallLLM (e : event) : bool :=
  match e with CallLLM _ _ => true | _ => false end.


Definition is_HttpPost (e : event) : bool :=
  match e with HttpPost _ _ _ => true | _ => false end.

(** ** The monad: world, trace, exceptions *)

Section Monad.
Context {E : Env}.

Definition M (A : Type) : Type := World -> result A * World * list event.

Definition ret {A} (a : A) : M A := fun w => (inl a, w, []).

Definition raise {A} (e : exn) : M A := fun w => (inr e, w, []).

Definition bind {A B} (m : M A) (k : A -> M B) : M B :=
  fun w =>
    match m w with
    | (inl a, w1, t1) => let '(r, w2, t2) := k a w1 in (r, w2, (t1 ++ t2)%list)
    | (inr e, w1, t1) => (inr e, w1, t1)
    end.

(** A pure operation that may raise. *)
Definition lift {A} (r : result A) : M A :=
  match r with inl a => ret a | inr e => raise e end.

Definition emit (e : event) : M unit := fun w => (inl tt, w, [e]).

(** [try: body / except ... as e: handler e] *)
Definition try_except {A} (body : M A) (handler : exn -> M A) : M A :=
  fun w =>
    match body w with
    | (inl a, w1, t1) => (inl a, w1, t1)
    | (inr e, w1, t1) =>
        let '(r, w2, t2) := handler e w1 in (r, w2, (t1 ++ t2)%list)
    end.

Definition post (url : string) (payload : pyval)
           (headers : list (string * string)) : M Response :=
  fun w =>
    match requests_post url payload headers w with
    | (inl r, w1) => (inl r, w1, [HttpPost url payload headers])
    | (inr (cls, msg), w1) =>
        (inr (PyExc cls msg), w1, [HttpPost url payload headers])
    end.

(** The value and the trace of a run, and the backend calls in a trace. *)
Definition value {A} (x : result A * World * list event) : result A :=
  fst (fst x).
Definition trace {A} (x : result A * World * list event) : list event :=
  snd x.
Definition llm_calls (t : list event) : list event := filter is_CallLLM t.
End Monad.

Declare Scope monad_scope.
Delimit Scope monad_scope with monad.
Notation "x <- c ;; k" := (bind c (fun x => k))
  (at level 61, c at next level, right associativity) : monad_scope.
Notation "c ;;; k" := (bind c (fun _ => k))
  (at level 61, right associativity) : monad_scope.
Local Open Scope monad_scope.

(** ** Data of the pipeline *)

(** [Pipeline.Valves]: four string-typed settings. *)
Record Valves : Type := mkValves {
  OPENAI_API_BASE_URL : string;
  OPENAI_API_KEY : string;
  DEFAULT_AGENT_MODEL_ID : string;
  AGENT_CONFIGS_JSON : string
}.

(** One entry of the list returned by a dispatch:
  [{"agent_id": ..., "response": ...}]. *)
Record AgentResult : Type := mkAgentResult {
  agent_id : string;
  response : string
}.

(** The attributes of an [AgentCoordinator] that its methods read. *)
Record AgentCoordinator : Type := mkAgentCoordinator {
  valves : Valves;
  agent_configs : pyval
}.

(** The attributes of a [Pipeline]; [coordinator] is [None] when the
  constructor of the coordinator raised. *)
Record Pipeline : Type := mkPipeline {
  pipeline_valves : Valves;
  coordinator : option AgentCoordinator
}.

(** The registry of the data model: a mapping whose values are objects.
    Nothing in the source checks it; [json.loads] accepts any document. *)
Definition is_registry (cfgs : pyval) : bool :=
  match cfgs with
  | PDict kvs => forallb (fun kv => is_dict (snd kv)) kvs
  | _ => false
  end.

(** The exceptions that the two [except] clauses around [json.loads]
    catch, at lines 24-30 of the coordinator and 69-74 of the pipeline:
    [json.JSONDecodeError] and [AttributeError]. *)
Definition decode_handled (cls : string) : bool :=
  String.eqb cls "JSONDecodeError" || String.eqb cls "AttributeError".

(** ** agent_coordinator.py *)

Section Coordinator.
Context {E : Env}.

(** [AgentCoordinator.__init__]: the registry is the decoded valve; an
    exception of [json.loads] that a handler catches leaves it empty, any
    other leaves the constructor; the [len] of the success message is
    inside the [try] and its [TypeError] is not among the handlers. *)
Definition AgentCoordinator_init (v : Valves) : result AgentCoordinator :=
  match json_loads (AGENT_CONFIGS_JSON v) with
  | inl cfgs =>
      match len cfgs with
      | inl _ => inl (mkAgentCoordinator v cfgs)
      | inr e => inr e
      end
  | inr (cls, msg) =>
      if decode_handled cls then inl (mkAgentCoordinator v (PDict []))
      else inr (PyExc cls msg)
  end.

(** [response.raise_for_status()] *)
Definition is_error_status (r : Response) : bool :=
  (400 <=? status_code r)%Z && (status_code r <? 600)%Z.

Definition raise_for_status (r : Response) : M unit :=
  if is_error_status r then raise (HTTPError r) else ret tt.

(** [bool(response)] is [response.ok]. *)
Definition Response_bool (r : Response) : bool := negb (is_error_status r).

(** [response.json()] *)
Definition Response_json (r : Response) : M pyval :=
  match json_body r with
  | inl v => ret v
  | inr (cls, msg) => raise (PyExc cls msg)
  end.

(** [content.strip()] *)
Definition strip (content : pyval) : M string :=
  match content with
  | PStr s => ret (str_strip s)
  | _ => raise (AttributeError content "strip")
  end.

(** The body of the [try] in [_call_llm], lines 60-72. *)
Definition call_llm_try (request_url : string) (payload : pyval)
           (headers : list (string * string)) : M string :=
  response <- post request_url payload headers ;;
  raise_for_status response ;;;
  response_json <- Response_json response ;;
  choices <- lift (get response_json "choices" PNone) ;;
  has_message <-
    (if truthy choices then
       choices <- lift (item response_json "choices") ;;
       first <- lift (item0 choices) ;;
       message <- lift (get first "message" PNone) ;;
       ret (truthy message)
     else ret false) ;;
  if has_message : bool then
    choices <- lift (item response_json "choices") ;;
    first <- lift (item0 choices) ;;
    message <- lift (item first "message") ;;
    content <- lift (get message "content" (PStr EmptyString)) ;;
    strip content
  else
    ret ("Error: Unexpected LLM response structure. Full response: "
           ++ json_dumps response_json).

(** The two handlers of [_call_llm], lines 74-82. *)
Definition call_llm_except (e : exn) : M string :=
  match e with
  | HTTPError r =>
      let error_detail :=
        if Response_bool r then text r else "No response body" in
      ret ("Error: HTTP error " ++ str_of_int (status_code r) ++ " - "
             ++ error_detail)
  | PyExc _ msg =>
      ret ("Error: An unexpected error occurred during LLM call: " ++ msg)
  end.

Definition _call_llm (self : AgentCoordinator) (messages : list pyval)
           (model_id : pyval) : M string :=
  emit (CallLLM messages model_id) ;;;
  let api_base_url := OPENAI_API_BASE_URL (valves self) in
  let api_key := OPENAI_API_KEY (valves self) in
  if negb (truthy (PStr api_key)) then
    ret "Error: OPENAI_API_KEY not configured."
  else
    let request_url := rstrip_slash api_base_url ++ "/chat/completions" in
    let headers := [("Authorization", "Bearer " ++ api_key);
                    ("Content-Type", "application/json")] in
    let payload := PDict [("model", model_id);
                          ("messages", PList messages);
                          ("stream", PBool false)] in
    try_except (call_llm_try request_url payload headers) call_llm_except.

Definition not_loaded (agent_id : string) : AgentResult :=
  mkAgentResult agent_id
    "Error: Agent configurations not loaded in coordinator. Check pipeline valve setup.".

Definition no_configuration (agent_id : string) : AgentResult :=
  mkAgentResult agent_id
    ("Error: No configuration found for agent_id '" ++ agent_id ++ "'.").

Definition system_entry (system_prompt : pyval) : pyval :=
  PDict [("role", PStr "system"); ("content", system_prompt)].

Definition user_entry (user_query : string) : pyval :=
  PDict [("role", PStr "user"); ("content", PStr user_query)].

(** Lines 115-119. *)
Definition resolve_model_id (self : AgentCoordinator)
           (agent_config : pyval) (base_model_id : string) : result pyval :=
  match get agent_config "model_id" PNone with
  | inl agent_model_id =>
      let agent_model_id :=
        if negb (truthy agent_model_id) then PStr base_model_id
        else agent_model_id in
      let agent_model_id :=
        if negb (truthy agent_model_id)
        then PStr (DEFAULT_AGENT_MODEL_ID (valves self))
        else agent_model_id in
      inl agent_model_id
  | inr e => inr e
  end.

(** Lines 123-129. *)
Definition build_messages (system_prompt : pyval)
           (chat_history : list pyval) (user_query : string) : list pyval :=
  let current_agent_messages := [system_entry system_prompt] in
  let history_to_include := last_n 4 chat_history in
  let current_agent_messages :=
    fold_left (fun msgs msg => (msgs ++ [msg])%list)
              history_to_include current_agent_messages in
  (current_agent_messages ++ [user_entry user_query])%list.

(** One pass through the body of the second [for], lines 103-138: the
    entry it appends to [all_agent_results]. *)
Definition process_agent (self : AgentCoordinator) (user_query : string)
           (chat_history : list pyval) (base_model_id : string)
           (agent_id : string) : M AgentResult :=
  agent_config <- lift (get (agent_configs self) agent_id PNone) ;;
  if negb (truthy agent_config) then
    ret (no_configuration agent_id)
  else
    system_prompt <-
      lift (get agent_config "system_prompt"
                (PStr "You are a helpful assistant.")) ;;
    agent_model_id <-
      lift (resolve_model_id self agent_config base_model_id) ;;
    let current_agent_messages :=
      build_messages system_prompt chat_history user_query in
    agent_response_content <-
      _call_llm self current_agent_messages agent_model_id ;;
    ret (mkAgentResult agent_id agent_response_content).

(** The second [for] with its accumulator [all_agent_results]. *)
Fixpoint agents_loop (self : AgentCoordinator) (user_query : string)
         (chat_history : list pyval) (base_model_id : string)
         (agent_ids : list string) (all_agent_results : list AgentResult)
  : M (list AgentResult) :=
  match agent_ids with
  | [] => ret all_agent_results
  | agent_id :: rest =>
      r <- process_agent self user_query chat_history base_model_id agent_id ;;
      agents_loop self user_query chat_history base_model_id rest
                  (all_agent_results ++ [r])%list
  end.

Definition manage_multi_agent_flow (self : AgentCoordinator)
           (user_query : string) (chat_history : list pyval)
           (agent_ids : list string) (base_model_id : string)
  : M (list AgentResult) :=
  let all_agent_results := [] in
  emit RegistryTest ;;;
  if negb (truthy (agent_configs self)) then
    ret (fold_left (fun acc agent_id => (acc ++ [not_loaded agent_id])%list)
                   agent_ids all_agent_results)
  else
    agents_loop self user_query chat_history base_model_id agent_ids
                all_agent_results.
End Coordinator.

(** ** multi_agent_chat_pipeline.py *)

Section PipelineMethods.
Context {E : Env}.

(** [Pipeline.__init__]: any exception of the coordinator's constructor
    leaves [self.coordinator = None]. *)
Definition Pipeline_init (v : Valves) : Pipeline :=
  mkPipeline v
    (match AgentCoordinator_init v with
     | inl c => Some c
     | inr _ => None
     end).

(** [Pipeline.on_valves_updated]: the pipeline afterwards, and [inr e]
    when exception [e] leaves the method.  The assignment to
    [agent_configs] comes before the [len] of the message; an exception
    of [json.loads] that no handler catches leaves the method before any
    assignment. *)
Definition on_valves_updated (self : Pipeline) : Pipeline * result unit :=
  match coordinator self with
  | Some c =>
      let new_agent_configs_json_str :=
        AGENT_CONFIGS_JSON (pipeline_valves self) in
      match json_loads new_agent_configs_json_str with
      | inl cfgs =>
          let self' :=
            mkPipeline (pipeline_valves self)
                       (Some (mkAgentCoordinator (valves c) cfgs)) in
          match len cfgs with
          | inl _ => (self', inl tt)
          | inr e => (self', inr e)
          end
      | inr (cls, msg) =>
          if decode_handled cls then
            (mkPipeline (pipeline_valves self)
                        (Some (mkAgentCoordinator (valves c) (PDict []))),
             inl tt)
          else (self, inr (PyExc cls msg))
      end
  | None => (self, inl tt)
  end.

Definition default_agent_ids_to_run : list string :=
  ["analyst_agent_v1"; "default_responder"].

(** [isinstance(v, list) and all(isinstance(x, str) for x in v)], giving
    the strings. *)
Fixpoint all_str (l : list pyval) : option (list string) :=
  match l with
  | [] => Some []
  | PStr s :: rest =>
      match all_str rest with Some ss => Some (s :: ss) | None => None end
  | _ :: _ => None
  end.

Definition list_of_str (v : pyval) : option (list string) :=
  match v with PList l => all_str l | _ => None end.

(** Lines 94-99: the ids the request selects. *)
Definition agent_ids_to_run (body : list (string * pyval)) : list string :=
  match lookup "agent_ids" body with
  | Some v =>
      match list_of_str v with
      | Some ids => ids
      | None => default_agent_ids_to_run
      end
  | None => default_agent_ids_to_run
  end.

Definition pipe (self : Pipeline) (user_message : string)
           (model_id : string) (messages : list pyval)
           (body : list (string * pyval)) : M (list AgentResult) :=
  match coordinator self with
  | None =>
      ret [mkAgentResult "system_error"
             "Coordinator not initialized. Cannot process request."]
  | Some c =>
      let base_model_id :=
        if truthy (PStr model_id) then model_id
        else DEFAULT_AGENT_MODEL_ID (pipeline_valves self) in
      match agent_ids_to_run body with
      | [] =>
          ret [mkAgentResult "system_message"
                 "No agents were specified to process this request."]
      | ids =>
          manage_multi_agent_flow c user_message messages ids base_model_id
      end
  end.
End PipelineMethods.

(** ** A scripted environment

  A test double for the libraries: [json.loads] knows a few blobs, the
  network answers from a script and fails once the script is used up.
  The blob [long_int_blob], an opening bracket and 5000 digits, is one
  on which the decoder raises [ValueError], not [JSONDecodeError]. *)

Module Scripted.

Definition dq : string := String (ascii_of_nat 34) EmptyString.

(** The text [{<dq>a<dq>: {<dq>system_prompt<dq>: <dq>P<dq>}}]. *)
Definition blob_a : string :=
  "{" ++ dq ++ "a" ++ dq ++ ": {" ++ dq ++ "system_prompt" ++ dq ++ ": "
      ++ dq ++ "P" ++ dq ++ "}}".

(** [n] times the digit 1. *)
Fixpoint ones (n : nat) : string :=
  match n with
  | O => EmptyString
  | S n' => String "1" (ones n')
  end.

Definition long_int_blob : string := String "[" (ones 5000).

Definition digit_limit_message : string :=
  "Exceeds the limit (4300 digits) for integer string conversion: value has 5000 digits; use sys.set_int_max_str_digits() to increase the limit".

Definition loads (s : string) : pyval + (string * string) :=
  if String.eqb s "{}" then inl (PDict [])
  else if String.eqb s "5" then inl (PInt 5)
  else if String.eqb s blob_a
       then inl (PDict [("a", PDict [("system_prompt", PStr "P")])])
  else if String.eqb s long_int_blob
       then inr ("ValueError", digit_limit_message)
  else inr ("JSONDecodeError", "Expecting value: line 1 column 1 (char 0)").

Definition script : Type := list (Response + (string * string)).

Definition post_script (url : string) (payload : pyval)
           (headers : list (string * string)) (w : script)
  : (Response + (string * string)) * script :=
  match w with
  | [] => (inr ("ConnectionError", "connection refused"), [])
  | r :: rest => (r, rest)
  end.

Definition env : Env :=
  {| World := script;
     json_loads := loads;
     json_dumps := fun _ => "<json>";
     str_strip := fun s => s;
     requests_post := post_script |}.

(** A completion whose first choice says [content]. *)
Definition completion (content : string) : Response :=
  mkResponse 200 "<body>"
    (inl (PDict [("choices",
                  PList [PDict [("message",
                                 PDict [("role", PStr "assistant");
                                        ("content", PStr content)])]])])).

Definition test_valves (blob : string) : Valves :=
  mkValves "https://api.openai.com/v1/" "sk-test" "m3" blob.

End Scripted.

(** ** The specification's reading of a configuration *)

(** Model resolution as §4.2 step 3 words it: the agent's own model id if
    present and non-empty, else the base model id if non-empty, else the
    default. *)
Definition spec_model_id (own : option string) (base default : string)
  : string :=
  let fallback := if String.eqb base EmptyString then default else base in
  match own with
  | Some m => if String.eqb m EmptyString then fallback else m
  | None => fallback
  end.

(** The [model_id] of a configuration object read as an optional string:
    absent (or [null]), or a string; [None] when it is anything else. *)
Definition own_model_id (ckvs : list (string * pyval))
  : option (option string) :=
  match lookup "model_id" ckvs with
  | None | Some PNone => Some None
  | Some (PStr m) => Some (Some m)
  | Some _ => None
  end.

(** The coordinator with another default model in its valves. *)
Definition with_default (d : string) (c : AgentCoordinator)
  : AgentCoordinator :=
  mkAgentCoordinator
    (mkValves (OPENAI_API_BASE_URL (valves c)) (OPENAI_API_KEY (valves c))
              d (AGENT_CONFIGS_JSON (valves c)))
    (agent_configs c).

Definition pipeline_with_default (d : string) (self : Pipeline) : Pipeline :=
  mkPipeline (pipeline_valves self)
             (option_map (with_default d) (coordinator self)).

(** ** Readings used by the further properties *)

(** The content of a well-shaped completion: [choices] is a list whose
    first item is an object, its [message] is a non-empty object, and the
    [content] of the message is a string or is absent (then [""]). *)
Definition first_choice_content (response_json : pyval) : option string :=
  match response_json with
  | PDict kvs =>
      match lookup "choices" kvs with
      | Some (PList (PDict first :: _)) =>
          match lookup "message" first with
          | Some (PDict (m :: ms)) =>
              match lookup "content" (m :: ms) with
              | Some (PStr s) => Some s
              | None => Some EmptyString
              | Some _ => None
              end
          | _ => None
          end
      | _ => None
      end
  | _ => None
  end.

(** The registry maps the id to a truthy value. *)
Definition has_config (cfgs : pyval) (a : string) : bool :=
  match cfgs with
  | PDict kvs =>
      match lookup a kvs with Some v => truthy v | None => false end
  | _ => false
  end.

(** The coordinator with another base URL in its valves. *)
Definition with_base_url (u : string) (c : AgentCoordinator)
  : AgentCoordinator :=
  mkAgentCoordinator
    (mkValves u (OPENAI_API_KEY (valves c))
              (DEFAULT_AGENT_MODEL_ID (valves c))
              (AGENT_CONFIGS_JSON (valves c)))
    (agent_configs c).

(** [n] slashes. *)
Fixpoint slashes (n : nat) : string :=
  match n with
  | O => EmptyString
  | S n' => String "/" (slashes n')
  end.

(** What [_call_llm] sends: URL, JSON body and headers, lines 46-57. *)
Definition request_url (v : Valves) : string :=
  rstrip_slash (OPENAI_API_BASE_URL v) ++ "/chat/completions".

Definition request_payload (messages : list pyval) (model_id : pyval)
  : pyval :=
  PDict [("model", model_id); ("messages", PList messages);
         ("stream", PBool false)].

Definition request_headers (v : Valves) : list (string * string) :=
  [("Authorization", "Bearer " ++ OPENAI_API_KEY v);
   ("Content-Type", "application/json")].

(** The part of the [try] of [_call_llm] that reads the decoded body,
    lines 65-72. *)
Definition read_completion {E : Env} (response_json : pyval) : M string :=
  choices <- lift (get response_json "choices" PNone) ;;
  has_message <-
    (if truthy choices then
       choices <- lift (item response_json "choices") ;;
       first <- lift (item0 choices) ;;
       message <- lift (get first "message" PNone) ;;
       ret (truthy message)
     else ret false) ;;
  if has_message : bool then
    choices <- lift (item response_json "choices") ;;
    first <- lift (item0 choices) ;;
    message <- lift (item first "message") ;;
    content <- lift (get message "content" (PStr EmptyString)) ;;
    strip content
  else
    ret ("Error: Unexpected LLM response structure. Full response: "
           ++ json_dumps response_json).

(** A string that reports a failure. *)
Definition is_error_string (s : string) : bool := String.prefix "Error: " s.

(** A coordinator without API key, and one whose registry decoded to a
    list. *)
Definition keyless (cfgs : pyval) : AgentCoordinator :=
  mkAgentCoordinator
    (mkValves "https://api.openai.com/v1" EmptyString "m3" "{}") cfgs.

(** The entry of an agent whose backend call found no API key. *)
Definition not_configured (agent_id : string) : AgentResult :=
  mkAgentResult agent_id "Error: OPENAI_API_KEY not configured.".

(** Values on which [len] raises. *)
Definition unsized (v : pyval) : bool :=
  match v with
  | PNone | PBool _ | PInt _ | PFloat _ => true
  | _ => false
  end.

(** The part of one pass of the loop that comes before the backend call,
    lines 103-129: an exception, no call (the id has no configuration), or
    the messages and the model of the call. *)
Definition agent_plan (self : AgentCoordinator) (user_query : string)
           (chat_history : list pyval) (base_model_id : string)
           (agent_id : string) : result (option (list pyval * pyval)) :=
  match get (agent_configs self) agent_id PNone with
  | inr e => inr e
  | inl agent_config =>
      if negb (truthy agent_config) then inl None
      else
        match get agent_config "system_prompt"
                  (PStr "You are a helpful assistant.") with
        | inr e => inr e
        | inl system_prompt =>
            match resolve_model_id self agent_config base_model_id with
            | inr e => inr e
            | inl agent_model_id =>
                inl (Some (build_messages system_prompt chat_history
                                          user_query, agent_model_id))
            end
        end
  end.

(** The backend calls a loop over the ids makes, up to the first pass
    that raises. *)
Fixpoint planned_calls (self : AgentCoordinator) (user_query : string)
         (chat_history : list pyval) (base_model_id : string)
         (agent_ids : list string) : list event :=
  match agent_ids with
  | [] => []
  | a :: rest =>
      match agent_plan self user_query chat_history base_model_id a with
      | inr _ => []
      | inl None =>
          planned_calls self user_query chat_history base_model_id rest
      | inl (Some (messages, model_id)) =>
          CallLLM messages model_id
            :: planned_calls self user_query chat_history base_model_id rest
      end
  end.

(** ** Sample data *)

Module Sample.
Import Scripted.

Definition coordinator_of (cfgs : pyval) : AgentCoordinator :=
  mkAgentCoordinator (test_valves "{}") cfgs.

(** [{"x": {"system_prompt": "P", "model_id": "m1"}}] *)
Definition registry_m1 : pyval :=
  PDict [("x", PDict [("system_prompt", PStr "P"); ("model_id", PStr "m1")])].

(** [{"x": {"system_prompt": "P"}}] *)
Definition registry_no_model : pyval :=
  PDict [("x", PDict [("system_prompt", PStr "P")])].

(** [{"x": {"model_id": "m1"}}] *)
Definition registry_no_prompt : pyval :=
  PDict [("x", PDict [("model_id", PStr "m1")])].

(** [{"x": {"system_prompt": ""}}] *)
Definition registry_empty_prompt : pyval :=
  PDict [("x", PDict [("system_prompt", PStr EmptyString)])].

(** Ten history entries, numbered. *)
Definition history10 : list pyval :=
  map (fun n => PDict [("role", PStr "user"); ("content", PInt n)])
      [1; 2; 3; 4; 5; 6; 7; 8; 9; 10]%Z.

(** A pipeline loaded from [blob_a] whose valve then changed to text that
    is not JSON. *)
Definition reloaded_with_garbage : Pipeline :=
  mkPipeline (test_valves "not json")
             (coordinator (@Pipeline_init env (test_valves blob_a))).

(** The same pipeline with the valve changed to [long_int_blob]. *)
Definition reloaded_with_long_int : Pipeline :=
  mkPipeline (test_valves long_int_blob)
             (coordinator (@Pipeline_init env (test_valves blob_a))).

End Sample.

(** * Properties *)

(** ** Laws of the monad, pointwise in the world *)

Section MonadLaws.
Context {E : Env}.

Lemma bind_ret_l {A B} (a : A) (k : A -> M B) w :
  bind (ret a) k w = k a w.
Proof.
  unfold bind, ret. destruct (k a w) as [[r w2] t2]. reflexivity.
Qed.

Lemma bind_ret_r {A} (m : M A) w : bind m ret w = m w.
Proof.
  unfold bind, ret. destruct (m w) as [[[a | e] w1] t1]; trivial.
  now rewrite app_nil_r.
Qed.

Lemma bind_assoc {A B C} (m : M A) (k : A -> M B) (h : B -> M C) w :
  bind (bind m k) h w = bind m (fun a => bind (k a) h) w.
Proof.
  unfold bind. destruct (m w) as [[[a | e] w1] t1]; trivial.
  destruct (k a w1) as [[[b | e] w2] t2]; trivial.
  destruct (h b w2) as [[r w3] t3]. now rewrite app_assoc.
Qed.

Lemma bind_ext {A B} (m : M A) (k1 k2 : A -> M B) w :
  (forall a w', k1 a w' = k2 a w') -> bind m k1 w = bind m k2 w.
Proof.
  intros H. unfold bind. destruct (m w) as [[[a | e] w1] t1]; trivial.
  now rewrite H.
Qed.

Lemma bind_cong {A B} (m1 m2 : M A) (k : A -> M B) w :
  m1 w = m2 w -> bind m1 k w = bind m2 k w.
Proof. intros H. unfold bind. now rewrite H. Qed.

(** Every event of every run of [m] satisfies [P]. *)
Definition traced {A} (P : event -> Prop) (m : M A) : Prop :=
  forall w, Forall P (trace (m w)).

Lemma traced_ret {A} P (a : A) : traced P (ret a).
Proof. intros w. constructor. Qed.

Lemma traced_raise {A} P e : traced P (@raise _ A e).
Proof. intros w. constructor. Qed.

Lemma traced_lift {A} P (r : result A) : traced P (lift r).
Proof. destruct r; [apply traced_ret | apply traced_raise]. Qed.

Lemma traced_emit (P : event -> Prop) e : P e -> traced P (emit e).
Proof. intros H w. repeat constructor. exact H. Qed.

Lemma traced_bind {A B} P (m : M A) (k : A -> M B) :
  traced P m -> (forall a, traced P (k a)) -> traced P (bind m k).
Proof.
  intros Hm Hk w. specialize (Hm w). unfold bind, trace in *.
  destruct (m w) as [[[a | e] w1] t1]; simpl in *; trivial.
  specialize (Hk a w1). destruct (k a w1) as [[r w2] t2]; simpl in *.
  apply Forall_app. now split.
Qed.

Lemma traced_try {A} P (m : M A) (h : exn -> M A) :
  traced P m -> (forall e, traced P (h e)) -> traced P (try_except m h).
Proof.
  intros Hm Hh w. specialize (Hm w). unfold try_except, trace in *.
  destruct (m w) as [[[a | e] w1] t1]; simpl in *; trivial.
  specialize (Hh e w1). destruct (h e w1) as [[r w2] t2]; simpl in *.
  apply Forall_app. now split.
Qed.

Lemma traced_post (P : event -> Prop) url payload headers :
  P (HttpPost url payload headers) -> traced P (post url payload headers).
Proof.
  intros H w. unfold post, trace.
  destruct (requests_post url payload headers w) as [[r | [cls msg]] w1];
    simpl; repeat constructor; exact H.
Qed.

(** [m] returns in every world: no exception leaves it. *)
Definition returns {A} (m : M A) : Prop :=
  forall w, exists a, value (m w) = inl a.

Lemma returns_ret {A} (a : A) : returns (ret a).
Proof. intros w. now exists a. Qed.

Lemma returns_bind {A B} (m : M A) (k : A -> M B) :
  returns m -> (forall a, returns (k a)) -> returns (bind m k).
Proof.
  intros Hm Hk w. destruct (Hm w) as [a Ha]. unfold bind, value in *.
  destruct (m w) as [[r w1] t1]; simpl in Ha; subst r.
  destruct (Hk a w1) as [b Hb]. unfold value in Hb.
  destruct (k a w1) as [[r w2] t2]; simpl in *. now exists b.
Qed.

Lemma returns_try {A} (m : M A) (h : exn -> M A) :
  (forall e, returns (h e)) -> returns (try_except m h).
Proof.
  intros Hh w. unfold try_except, value.
  destruct (m w) as [[[a | e] w1] t1]; simpl; [now exists a |].
  destruct (Hh e w1) as [b Hb]. unfold value in Hb.
  destruct (h e w1) as [[r w2] t2]; simpl in *. now exists b.
Qed.

End MonadLaws.

Create HintDb traced.
#[export] Hint Resolve traced_ret traced_raise traced_lift traced_emit
  traced_bind traced_try traced_post : traced.

(** ** The backend call *)

Section CallLLM.
Context {E : Env}.
Variable self : AgentCoordinator.

Lemma call_llm_except_returns e : returns (call_llm_except e).
Proof. destruct e; apply returns_ret. Qed.

Lemma call_llm_returns messages model_id :
  returns (_call_llm self messages model_id).
Proof.
  unfold _call_llm. apply returns_bind.
  - intros w. now exists tt.
  - intros _. destruct (negb _).
    + apply returns_ret.
    + apply returns_try. apply call_llm_except_returns.
Qed.

Lemma strip_traced P content : traced P (strip content).
Proof. destruct content; simpl; auto with traced. Qed.

Lemma call_llm_try_traced url payload headers :
  traced (fun e => is_HttpPost e = true) (call_llm_try url payload headers).
Proof.
  unfold call_llm_try, raise_for_status, Response_json.
  apply traced_bind; [now apply traced_post | intros r].
  apply traced_bind; [destruct (is_error_status r); auto with traced |].
  intros _. apply traced_bind.
  { destruct (json_body r) as [v | [cls msg]]; auto with traced. }
  intros rj. apply traced_bind; [auto with traced | intros ch].
  apply traced_bind.
  { destruct (truthy ch); auto 10 with traced. }
  intros [|]; [| auto with traced].
  repeat (apply traced_bind; [auto with traced | intros ?]).
  apply strip_traced.
Qed.

Lemma call_llm_except_traced P e : traced P (call_llm_except e).
Proof. destruct e; apply traced_ret. Qed.

(** A backend call logs itself first, and after that only its POST. *)
Lemma call_llm_trace messages model_id w :
  exists t, trace (_call_llm self messages model_id w)
            = CallLLM messages model_id :: t
            /\ Forall (fun e => is_HttpPost e = true) t.
Proof.
  unfold _call_llm.
  match goal with |- context [bind _ ?k] => set (rest := k) end.
  assert (H : Forall (fun e => is_HttpPost e = true) (trace (rest tt w))).
  2: { unfold bind, emit. destruct (rest tt w) as [[r w2] t2].
       exists t2. now split. }
  subst rest. cbv beta. destruct (negb _).
  - constructor.
  - apply traced_try; [apply call_llm_try_traced |].
    intros e. apply call_llm_except_traced.
Qed.

Lemma call_llm_run messages model_id w :
  exists s w' t,
    _call_llm self messages model_id w
    = (inl s, w', CallLLM messages model_id :: t)
    /\ Forall (fun e => is_HttpPost e = true) t.
Proof.
  destruct (call_llm_returns messages model_id w) as [s Hs].
  destruct (call_llm_trace messages model_id w) as [t [Ht Hq]].
  unfold value, trace in *.
  destruct (_call_llm self messages model_id w) as [[r w'] t'].
  simpl in *. subst. now exists s, w', t.
Qed.

End CallLLM.

(** ** Lists: appending in a loop, and the trailing window *)

Lemma fold_left_snoc {A B} (f : A -> B) (l : list A) (acc : list B) :
  fold_left (fun acc x => (acc ++ [f x])%list) l acc = (acc ++ map f l)%list.
Proof.
  revert acc. induction l as [| x l IH]; intros acc; simpl.
  - now rewrite app_nil_r.
  - rewrite IH, <- app_assoc. reflexivity.
Qed.

Lemma last_n_length {A} n (l : list A) :
  List.length (last_n n l) = Nat.min n (List.length l).
Proof. unfold last_n. rewrite length_skipn. lia. Qed.

Lemma last_n_split {A} n (l : list A) :
  (firstn (List.length l - n) l ++ last_n n l)%list = l.
Proof. apply firstn_skipn. Qed.

(** The window is the only suffix of that length. *)
Lemma last_n_unique {A} n (l older window : list A) :
  l = (older ++ window)%list ->
  List.length window = Nat.min n (List.length l) ->
  last_n n l = window.
Proof.
  intros -> Hlen. unfold last_n. rewrite length_app in *.
  replace (List.length older + List.length window - n)
    with (List.length older) by lia.
  rewrite skipn_app, skipn_all, Nat.sub_diag. reflexivity.
Qed.

Lemma build_messages_eq system_prompt chat_history user_query :
  build_messages system_prompt chat_history user_query
  = (system_entry system_prompt
       :: last_n 4 chat_history ++ [user_entry user_query])%list.
Proof.
  unfold build_messages.
  rewrite (fold_left_snoc (fun x => x)), map_id. reflexivity.
Qed.

Lemma lookup_in k kvs v : lookup k kvs = Some v -> In (k, v) kvs.
Proof.
  induction kvs as [| [k' v'] kvs IH]; simpl; [discriminate |].
  destruct (String.eqb_spec k k') as [-> | _].
  - intros [= ->]. now left.
  - intros H. right. now apply IH.
Qed.

(** ** The dispatch loop *)

Section Dispatch.
Context {E : Env}.
Variables (self : AgentCoordinator) (user_query : string)
          (chat_history : list pyval) (base_model_id : string).

Local Abbreviation step := (process_agent self user_query chat_history base_model_id).
Local Abbreviation loop := (agents_loop self user_query chat_history base_model_id).

(** An id the registry does not map to a truthy value costs nothing. *)
Lemma process_agent_missing kvs a w :
  agent_configs self = PDict kvs ->
  match lookup a kvs with Some v => truthy v = false | None => True end ->
  step a w = (inl (no_configuration a), w, []).
Proof.
  intros Hc Hl. unfold process_agent. rewrite Hc. simpl.
  rewrite bind_ret_l. destruct (lookup a kvs) as [v |]; [rewrite Hl |];
    reflexivity.
Qed.

(** A configured id costs one backend call. *)
Lemma process_agent_configured kvs a kv ckvs model w :
  agent_configs self = PDict kvs ->
  lookup a kvs = Some (PDict (kv :: ckvs)) ->
  resolve_model_id self (PDict (kv :: ckvs)) base_model_id = inl model ->
  step a w
  = (content <-
       _call_llm self
         (build_messages
            (match lookup "system_prompt" (kv :: ckvs) with
             | Some v => v
             | None => PStr "You are a helpful assistant."
             end) chat_history user_query) model ;;
     ret (mkAgentResult a content)) w.
Proof.
  intros Hc Hl Hm. unfold process_agent. rewrite Hc. simpl get at 1.
  rewrite Hl. simpl lift at 1. rewrite bind_ret_l.
  cbn [truthy negb]. simpl get. simpl lift at 1. rewrite bind_ret_l.
  rewrite Hm. simpl lift. rewrite bind_ret_l. reflexivity.
Qed.

Lemma resolve_model_id_dict ckvs :
  exists model, resolve_model_id self (PDict ckvs) base_model_id = inl model.
Proof. unfold resolve_model_id. simpl. eauto. Qed.



(** The accumulator only prefixes what the loop produces. *)
Lemma agents_loop_acc ids acc w :
  loop ids acc w = (rs <- loop ids [] ;; ret (acc ++ rs)%list) w.
Proof.
  revert acc w. induction ids as [| a ids IH]; intros acc w; simpl.
  - now rewrite bind_ret_l, app_nil_r.
  - rewrite bind_assoc. apply bind_ext. intros r w1.
    rewrite (IH (acc ++ [r])%list).
    etransitivity; [| symmetry; apply bind_cong, (IH [r])].
    rewrite bind_assoc. apply bind_ext. intros rs w2.
    now rewrite bind_ret_l, <- app_assoc.
Qed.

Lemma agents_loop_cons a ids w :
  loop (a :: ids) [] w
  = (r <- step a ;; rs <- loop ids [] ;; ret (r :: rs)) w.
Proof.
  simpl. apply bind_ext. intros r w1. now rewrite agents_loop_acc.
Qed.

Lemma agents_loop_app pre post w :
  loop (pre ++ post) [] w
  = (before <- loop pre [] ;; after <- loop post [] ;;
     ret (before ++ after)%list) w.
Proof.
  revert w. induction pre as [| a pre IH]; intros w.
  - simpl. rewrite bind_ret_l. simpl. now rewrite bind_ret_r.
  - rewrite <- app_comm_cons, agents_loop_cons.
    etransitivity; [| symmetry; apply bind_cong, agents_loop_cons].
    rewrite bind_assoc.
    apply bind_ext. intros r w1.
    etransitivity; [apply bind_cong, IH |].
    rewrite !bind_assoc. apply bind_ext. intros before w2.
    rewrite bind_assoc, bind_ret_l. apply bind_ext. intros after w3.
    now rewrite bind_ret_l.
Qed.

(** Dispatch over a non-empty registry, cut at one agent. *)
Lemma manage_split pre a post w :
  truthy (agent_configs self) = true ->
  manage_multi_agent_flow self user_query chat_history (pre ++ a :: post)
                          base_model_id w
  = (emit RegistryTest ;;;
     before <- loop pre [] ;;
     r <- step a ;;
     after <- loop post [] ;;
     ret (before ++ r :: after)%list) w.
Proof.
  intros Ht. unfold manage_multi_agent_flow. rewrite Ht. simpl negb.
  apply bind_ext. intros _ w0. rewrite agents_loop_app.
  apply bind_ext. intros before w1.
  etransitivity; [apply bind_cong, agents_loop_cons |].
  rewrite !bind_assoc. apply bind_ext. intros r w2.
  rewrite !bind_assoc. apply bind_ext. intros after w3.
  now rewrite !bind_ret_l.
Qed.

(** With a well-typed registry every pass returns an entry for its id. *)
Lemma process_agent_ok a w :
  is_registry (agent_configs self) = true ->
  exists r w' t, step a w = (inl r, w', t) /\ agent_id r = a.
Proof.
  intros Hr. destruct (agent_configs self) as [| | | | | | kvs] eqn:Hc;
    try discriminate.
  destruct (lookup a kvs) as [cfg |] eqn:Hl.
  - simpl in Hr. rewrite forallb_forall in Hr.
    specialize (Hr _ (lookup_in _ _ Hl)). simpl in Hr.
    destruct cfg as [| | | | | | [| kv ckvs]]; try discriminate.
    + exists (no_configuration a), w, []. split; [| reflexivity].
      eapply process_agent_missing; [eassumption |]. now rewrite Hl.
    + destruct (resolve_model_id_dict (kv :: ckvs)) as [model Hm].
      rewrite (process_agent_configured _ _ Hc Hl Hm).
      match goal with |- context [_call_llm self ?m model] =>
        destruct (call_llm_run self m model w) as (s & w' & t & Hrun & _)
      end.
      unfold bind. rewrite Hrun. simpl.
      eexists _, _, _. split; reflexivity.
  - exists (no_configuration a), w, []. split; [| reflexivity].
    eapply process_agent_missing; [eassumption |]. now rewrite Hl.
Qed.

Lemma agents_loop_ok ids w :
  is_registry (agent_configs self) = true ->
  exists rs w' t, loop ids [] w = (inl rs, w', t) /\ map agent_id rs = ids.
Proof.
  intros Hr. revert w. induction ids as [| a ids IH]; intros w.
  - now exists [], w, [].
  - rewrite agents_loop_cons.
    destruct (process_agent_ok a w Hr) as (r & w1 & t1 & Hs & Ha).
    destruct (IH w1) as (rs & w2 & t2 & Hl & Hm).
    unfold bind. rewrite Hs, Hl. simpl.
    eexists _, _, _. split; [reflexivity |]. simpl. now rewrite Ha, Hm.
Qed.

End Dispatch.

(** ** Dispatch: one entry per requested id *)

(** C1: for every list of agent ids given to [manage_multi_agent_flow],
    over a registry that is empty or not, the call returns, and the
    returned list has one entry per input id, in input order, duplicates
    included: reading the [agent_id] of each entry gives back the input
    list.  The registry is one of the data model, a mapping from ids to
    configuration objects. *)
Theorem one_result_per_agent_id {E : Env} (self : AgentCoordinator)
        (user_query : string) (chat_history : list pyval)
        (agent_ids : list string) (base_model_id : string) (w : World) :
  is_registry (agent_configs self) = true ->
  exists results w' t,
    manage_multi_agent_flow self user_query chat_history agent_ids
                            base_model_id w
    = (inl results, w', t)
    /\ map agent_id results = agent_ids.
Proof.
  intros Hr. unfold manage_multi_agent_flow.
  destruct (truthy (agent_configs self)) eqn:Ht; simpl negb; cbv iota.
  - destruct (agents_loop_ok self user_query chat_history base_model_id
                             agent_ids w Hr) as (rs & w' & t & Hl & Hm).
    exists rs, w', (RegistryTest :: t). split; [| exact Hm].
    unfold bind, emit. now rewrite Hl.
  - exists (map not_loaded agent_ids), w, [RegistryTest]. split.
    + unfold bind, emit, ret. now rewrite fold_left_snoc.
    + rewrite map_map. apply map_id.
Qed.

Lemma one_result_per_agent_id_witness :
  is_registry (agent_configs (Sample.coordinator_of Sample.registry_m1)) = true
  /\ exists results w' t,
       @manage_multi_agent_flow Scripted.env
         (Sample.coordinator_of Sample.registry_m1) "q" []
         ["x"; "y"; "x"] "m2" [inl (Scripted.completion "hello")]
       = (inl results, w', t)
       /\ map agent_id results = ["x"; "y"; "x"].
Proof.
  split; [reflexivity |].
  apply (@one_result_per_agent_id Scripted.env). reflexivity.
Defined.



(** C5: an agent id that a non-empty registry does not contain gets the
    entry "No configuration found for agent_id '<id>'", naming it, at its
    place in the result; nothing else happens for it (no backend call, no
    change of the world), and the ids before and after it are processed
    as they would be without it. *)
Theorem missing_agent_is_skipped {E : Env} (self : AgentCoordinator)
        (user_query : string) (chat_history : list pyval)
        (base_model_id : string) (kvs : list (string * pyval))
        (a : string) :
  agent_configs self = PDict kvs ->
  kvs <> [] ->
  lookup a kvs = None ->
  forall pre post w,
    manage_multi_agent_flow self user_query chat_history (pre ++ a :: post)
                            base_model_id w
    = (emit RegistryTest ;;;
       before <- agents_loop self user_query chat_history base_model_id
                             pre [] ;;
       after <- agents_loop self user_query chat_history base_model_id
                            post [] ;;
       ret (before
              ++ mkAgentResult a
                   ("Error: No configuration found for agent_id '" ++ a ++ "'.")
              :: after)%list) w.
Proof.
  intros Hc Hne Hl pre post w.
  rewrite manage_split by (rewrite Hc; now destruct kvs).
  apply bind_ext. intros _ w0. apply bind_ext. intros before w1.
  unfold bind at 1.
  erewrite process_agent_missing; [| eassumption | now rewrite Hl].
  unfold bind.
  destruct (agents_loop _ _ _ _ post [] w1) as [[[after | e] w2] t2];
    reflexivity.
Qed.

Lemma missing_agent_is_skipped_witness :
  agent_configs (Sample.coordinator_of Sample.registry_m1)
  = PDict [("x", PDict [("system_prompt", PStr "P");
                        ("model_id", PStr "m1")])]
  /\ lookup "y" [("x", PDict [("system_prompt", PStr "P");
                               ("model_id", PStr "m1")])] = None
  /\ @manage_multi_agent_flow Scripted.env
       (Sample.coordinator_of Sample.registry_m1) "q" [] ["y"; "x"] "m2"
       [inl (Scripted.completion "hello")]
     = (inl [mkAgentResult "y"
               "Error: No configuration found for agent_id 'y'.";
             mkAgentResult "x" "hello"],
        [],
        trace (@manage_multi_agent_flow Scripted.env
                 (Sample.coordinator_of Sample.registry_m1) "q" [] ["x"] "m2"
                 [inl (Scripted.completion "hello")])).
Proof.
  split; [reflexivity | split; [reflexivity |]].
  rewrite (@missing_agent_is_skipped Scripted.env
             (Sample.coordinator_of Sample.registry_m1) "q" [] "m2" _ "y"
             eq_refl ltac:(discriminate) eq_refl [] ["x"]).
  reflexivity.
Defined.

(** ** The backend call never raises *)

(** C6: for every message list and model id, whatever the network does
    (any response of any status and body, any transport failure, any
    decoding error, any shape of the decoded document) and whatever the
    valves hold, [_call_llm] returns a string: no exception leaves it. *)
Theorem call_llm_never_raises {E : Env} (self : AgentCoordinator)
        (messages : list pyval) (model_id : pyval) (w : World) :
  exists s : string, value (_call_llm self messages model_id w) = inl s.
Proof. apply call_llm_returns. Qed.

(** The error classes one by one. *)

Lemma call_llm_missing_key {E : Env} self messages model_id w :
  OPENAI_API_KEY (valves self) = EmptyString ->
  _call_llm self messages model_id w
  = (inl "Error: OPENAI_API_KEY not configured.", w,
     [CallLLM messages model_id]).
Proof. intros H. unfold _call_llm. rewrite H. reflexivity. Qed.

Lemma call_llm_try_transport_failure {E : Env} url payload headers w
      cls msg w1 :
  requests_post url payload headers w = (inr (cls, msg), w1) ->
  try_except (call_llm_try url payload headers) call_llm_except w
  = (inl ("Error: An unexpected error occurred during LLM call: " ++ msg),
     w1, [HttpPost url payload headers]).
Proof.
  intros H. unfold try_except, call_llm_try, bind, post. rewrite H.
  reflexivity.
Qed.

(** An error status is reported with its code; the body is never shown,
    since a response of such a status is falsy. *)
Lemma call_llm_try_http_error {E : Env} url payload headers w r w1 :
  requests_post url payload headers w = (inl r, w1) ->
  is_error_status r = true ->
  try_except (call_llm_try url payload headers) call_llm_except w
  = (inl ("Error: HTTP error " ++ str_of_int (status_code r)
            ++ " - No response body"),
     w1, [HttpPost url payload headers]).
Proof.
  intros H Hs.
  unfold try_except, call_llm_try, bind, post, raise_for_status.
  rewrite H, Hs. simpl. unfold Response_bool. rewrite Hs. reflexivity.
Qed.

Lemma call_llm_try_bad_json {E : Env} url payload headers w r w1 cls msg :
  requests_post url payload headers w = (inl r, w1) ->
  is_error_status r = false ->
  json_body r = inr (cls, msg) ->
  try_except (call_llm_try url payload headers) call_llm_except w
  = (inl ("Error: An unexpected error occurred during LLM call: " ++ msg),
     w1, [HttpPost url payload headers]).
Proof.
  intros H Hs Hj.
  unfold try_except, call_llm_try, bind, post, raise_for_status,
    Response_json.
  rewrite H, Hs, Hj. reflexivity.
Qed.

(** ** What a configured agent sends to the backend *)

Section Configured.
Context {E : Env}.
Variables (self : AgentCoordinator) (user_query : string)
          (chat_history : list pyval) (base_model_id : string).

(** Dispatch cut at a configured agent: the ids before it, one backend
    call with its context and model, the ids after it. *)
Lemma manage_configured kvs a kv ckvs model :
  agent_configs self = PDict kvs ->
  lookup a kvs = Some (PDict (kv :: ckvs)) ->
  resolve_model_id self (PDict (kv :: ckvs)) base_model_id = inl model ->
  forall pre post w,
    manage_multi_agent_flow self user_query chat_history (pre ++ a :: post)
                            base_model_id w
    = (emit RegistryTest ;;;
       before <- agents_loop self user_query chat_history base_model_id
                             pre [] ;;
       content <-
         _call_llm self
           (build_messages
              (match lookup "system_prompt" (kv :: ckvs) with
               | Some v => v
               | None => PStr "You are a helpful assistant."
               end) chat_history user_query) model ;;
       after <- agents_loop self user_query chat_history base_model_id
                            post [] ;;
       ret (before ++ mkAgentResult a content :: after)%list) w.
Proof.
  intros Hc Hl Hm pre post w.
  rewrite manage_split.
  2: { rewrite Hc. destruct kvs; [discriminate | reflexivity]. }
  apply bind_ext. intros _ w0. apply bind_ext. intros before w1.
  etransitivity.
  { apply bind_cong. eapply process_agent_configured; eassumption. }
  rewrite bind_assoc. apply bind_ext. intros content w2.
  now rewrite bind_ret_l.
Qed.

Lemma resolve_model_id_spec ckvs own :
  own_model_id ckvs = Some own ->
  resolve_model_id self (PDict ckvs) base_model_id
  = inl (PStr (spec_model_id own base_model_id
                             (DEFAULT_AGENT_MODEL_ID (valves self)))).
Proof.
  unfold own_model_id, resolve_model_id, spec_model_id. simpl get.
  destruct (lookup "model_id" ckvs) as [[| | | | m | |] |];
    try discriminate; intros [= <-]; cbn [truthy];
    try destruct (String.eqb m EmptyString) eqn:Hm; cbn [truthy negb];
    rewrite ?Hm; cbn [truthy negb];
    destruct (String.eqb base_model_id EmptyString) eqn:Hb; cbn [negb];
    rewrite ?Hm, ?Hb; reflexivity.
Qed.

End Configured.

(** C2: for an agent id that the registry maps to a configuration object
    whose [model_id] is an optional string, the backend is called with the
    model id given by the three-level priority: the configuration's own
    [model_id] if present and non-empty, else [base_model_id] if
    non-empty, else the default model of the valves.  This holds wherever
    the id stands in the list of requested ids. *)
Theorem model_id_priority {E : Env} (self : AgentCoordinator)
        (user_query : string) (chat_history : list pyval)
        (base_model_id : string) (kvs : list (string * pyval)) (a : string)
        (kv : string * pyval) (ckvs : list (string * pyval))
        (own : option string) :
  agent_configs self = PDict kvs ->
  lookup a kvs = Some (PDict (kv :: ckvs)) ->
  own_model_id (kv :: ckvs) = Some own ->
  exists messages, forall pre post w,
    manage_multi_agent_flow self user_query chat_history (pre ++ a :: post)
                            base_model_id w
    = (emit RegistryTest ;;;
       before <- agents_loop self user_query chat_history base_model_id
                             pre [] ;;
       content <-
         _call_llm self messages
           (PStr (spec_model_id own base_model_id
                                (DEFAULT_AGENT_MODEL_ID (valves self)))) ;;
       after <- agents_loop self user_query chat_history base_model_id
                            post [] ;;
       ret (before ++ mkAgentResult a content :: after)%list) w.
Proof.
  intros Hc Hl Ho. eexists. intros pre post w.
  eapply manage_configured; [eassumption | eassumption |].
  now apply resolve_model_id_spec.
Qed.

(** The three cases of the specification: own model "m1", base "m2",
    default "m3" (the [test_valves]); then without the own model; then
    without the base either. *)
Lemma model_id_priority_witness :
  (own_model_id [("system_prompt", PStr "P"); ("model_id", PStr "m1")]
   = Some (Some "m1")
   /\ exists messages, forall pre post w,
        @manage_multi_agent_flow Scripted.env
          (Sample.coordinator_of Sample.registry_m1) "q" []
          (pre ++ "x" :: post) "m2" w
        = (emit RegistryTest ;;;
           before <- agents_loop (Sample.coordinator_of Sample.registry_m1)
                                 "q" [] "m2" pre [] ;;
           content <- _call_llm (Sample.coordinator_of Sample.registry_m1)
                                messages (PStr "m1") ;;
           after <- agents_loop (Sample.coordinator_of Sample.registry_m1)
                                "q" [] "m2" post [] ;;
           ret (before ++ mkAgentResult "x" content :: after)%list) w)
  /\ (own_model_id [("system_prompt", PStr "P")] = Some None
      /\ exists messages, forall pre post w,
           @manage_multi_agent_flow Scripted.env
             (Sample.coordinator_of Sample.registry_no_model) "q" []
             (pre ++ "x" :: post) "m2" w
           = (emit RegistryTest ;;;
              before <- agents_loop
                          (Sample.coordinator_of Sample.registry_no_model)
                          "q" [] "m2" pre [] ;;
              content <- _call_llm
                           (Sample.coordinator_of Sample.registry_no_model)
                           messages (PStr "m2") ;;
              after <- agents_loop
                         (Sample.coordinator_of Sample.registry_no_model)
                         "q" [] "m2" post [] ;;
              ret (before ++ mkAgentResult "x" content :: after)%list) w)
  /\ (exists messages, forall pre post w,
        @manage_multi_agent_flow Scripted.env
          (Sample.coordinator_of Sample.registry_no_model) "q" []
          (pre ++ "x" :: post) EmptyString w
        = (emit RegistryTest ;;;
           before <- agents_loop
                       (Sample.coordinator_of Sample.registry_no_model)
                       "q" [] EmptyString pre [] ;;
           content <- _call_llm
                        (Sample.coordinator_of Sample.registry_no_model)
                        messages (PStr "m3") ;;
           after <- agents_loop
                      (Sample.coordinator_of Sample.registry_no_model)
                      "q" [] EmptyString post [] ;;
           ret (before ++ mkAgentResult "x" content :: after)%list) w).
Proof.
  split; [split; [reflexivity |] | split; [split; [reflexivity |] |]].
  - exact (@model_id_priority Scripted.env
             (Sample.coordinator_of Sample.registry_m1) "q" [] "m2"
             _ "x" _ _ (Some "m1") eq_refl eq_refl eq_refl).
  - exact (@model_id_priority Scripted.env
             (Sample.coordinator_of Sample.registry_no_model) "q" [] "m2"
             _ "x" _ _ None eq_refl eq_refl eq_refl).
  - exact (@model_id_priority Scripted.env
             (Sample.coordinator_of Sample.registry_no_model) "q" []
             EmptyString _ "x" _ _ None eq_refl eq_refl eq_refl).
Defined.

(** C3: for a configured agent and every history, the messages given to
    the backend are one system message, then a window of the history,
    then one user message holding the query; the window is the tail of
    the history ([chat_history = older ++ window]) of length 4, or the
    whole history when it has fewer than 4 entries. *)
Theorem context_is_system_window_user {E : Env} (self : AgentCoordinator)
        (user_query : string) (chat_history : list pyval)
        (base_model_id : string) (kvs : list (string * pyval)) (a : string)
        (kv : string * pyval) (ckvs : list (string * pyval)) :
  agent_configs self = PDict kvs ->
  lookup a kvs = Some (PDict (kv :: ckvs)) ->
  exists older window system_prompt model,
    chat_history = (older ++ window)%list
    /\ List.length window = Nat.min 4 (List.length chat_history)
    /\ forall pre post w,
         manage_multi_agent_flow self user_query chat_history
                                 (pre ++ a :: post) base_model_id w
         = (emit RegistryTest ;;;
            before <- agents_loop self user_query chat_history base_model_id
                                  pre [] ;;
            content <-
              _call_llm self
                (PDict [("role", PStr "system"); ("content", system_prompt)]
                   :: window
                   ++ [PDict [("role", PStr "user");
                              ("content", PStr user_query)]])%list
                model ;;
            after <- agents_loop self user_query chat_history base_model_id
                                 post [] ;;
            ret (before ++ mkAgentResult a content :: after)%list) w.
Proof.
  intros Hc Hl.
  destruct (resolve_model_id_dict self base_model_id (kv :: ckvs))
    as [model Hm].
  exists (firstn (List.length chat_history - 4) chat_history),
         (last_n 4 chat_history).
  eexists _, model. split; [now rewrite last_n_split |].
  split; [apply last_n_length |].
  intros pre post w.
  rewrite (@manage_configured E self user_query chat_history base_model_id
             _ _ _ _ _ Hc Hl Hm).
  rewrite build_messages_eq. reflexivity.
Qed.

Lemma context_is_system_window_user_witness :
  exists older window system_prompt model,
    Sample.history10 = (older ++ window)%list
    /\ List.length window = 4
    /\ forall pre post w,
         @manage_multi_agent_flow Scripted.env
           (Sample.coordinator_of Sample.registry_m1) "q" Sample.history10
           (pre ++ "x" :: post) "m2" w
         = (emit RegistryTest ;;;
            before <- agents_loop (Sample.coordinator_of Sample.registry_m1)
                                  "q" Sample.history10 "m2" pre [] ;;
            content <-
              _call_llm (Sample.coordinator_of Sample.registry_m1)
                (PDict [("role", PStr "system"); ("content", system_prompt)]
                   :: window
                   ++ [PDict [("role", PStr "user"); ("content", PStr "q")]])%list
                model ;;
            after <- agents_loop (Sample.coordinator_of Sample.registry_m1)
                                 "q" Sample.history10 "m2" post [] ;;
            ret (before ++ mkAgentResult "x" content :: after)%list) w.
Proof.
  exact (@context_is_system_window_user Scripted.env
           (Sample.coordinator_of Sample.registry_m1) "q" Sample.history10
           "m2" _ "x" _ _ eq_refl eq_refl).
Defined.

(** C9, as the code has it: for a configured agent the system message
    holds the configuration's [system_prompt] whenever the key is present,
    whatever its value, the empty string included; the generic assistant
    prompt stands in only when the key is absent. *)
Theorem system_prompt_default_when_absent {E : Env}
        (self : AgentCoordinator) (user_query : string)
        (chat_history : list pyval) (base_model_id : string)
        (kvs : list (string * pyval)) (a : string)
        (kv : string * pyval) (ckvs : list (string * pyval)) :
  agent_configs self = PDict kvs ->
  lookup a kvs = Some (PDict (kv :: ckvs)) ->
  exists model, forall pre post w,
    manage_multi_agent_flow self user_query chat_history (pre ++ a :: post)
                            base_model_id w
    = (emit RegistryTest ;;;
       before <- agents_loop self user_query chat_history base_model_id
                             pre [] ;;
       content <-
         _call_llm self
           (PDict [("role", PStr "system");
                   ("content",
                    match lookup "system_prompt" (kv :: ckvs) with
                    | Some v => v
                    | None => PStr "You are a helpful assistant."
                    end)]
              :: last_n 4 chat_history
              ++ [PDict [("role", PStr "user");
                         ("content", PStr user_query)]])%list
           model ;;
       after <- agents_loop self user_query chat_history base_model_id
                            post [] ;;
       ret (before ++ mkAgentResult a content :: after)%list) w.
Proof.
  intros Hc Hl.
  destruct (resolve_model_id_dict self base_model_id (kv :: ckvs))
    as [model Hm].
  exists model. intros pre post w.
  rewrite (@manage_configured E self user_query chat_history base_model_id
             _ _ _ _ _ Hc Hl Hm).
  rewrite build_messages_eq. reflexivity.
Qed.

Lemma system_prompt_default_when_absent_witness :
  lookup "system_prompt" [("model_id", PStr "m1")] = None
  /\ exists model, forall pre post w,
       @manage_multi_agent_flow Scripted.env
         (Sample.coordinator_of Sample.registry_no_prompt) "q" []
         (pre ++ "x" :: post) "m2" w
       = (emit RegistryTest ;;;
          before <- agents_loop
                      (Sample.coordinator_of Sample.registry_no_prompt)
                      "q" [] "m2" pre [] ;;
          content <-
            _call_llm (Sample.coordinator_of Sample.registry_no_prompt)
              [PDict [("role", PStr "system");
                      ("content", PStr "You are a helpful assistant.")];
               PDict [("role", PStr "user"); ("content", PStr "q")]]
              model ;;
          after <- agents_loop
                     (Sample.coordinator_of Sample.registry_no_prompt)
                     "q" [] "m2" post [] ;;
          ret (before ++ mkAgentResult "x" content :: after)%list) w.
Proof.
  split; [reflexivity |].
  exact (@system_prompt_default_when_absent Scripted.env
           (Sample.coordinator_of Sample.registry_no_prompt) "q" [] "m2"
           _ "x" _ _ eq_refl eq_refl).
Defined.

(** C9, as the claim words it, fails: with the registry
    [{"x": {"system_prompt": ""}}] the backend receives a system message
    whose content is the empty string, not the generic prompt. *)
Lemma empty_system_prompt_is_kept :
  llm_calls
    (trace (@manage_multi_agent_flow Scripted.env
              (Sample.coordinator_of Sample.registry_empty_prompt)
              "q" [] ["x"] "m2" []))
  = [CallLLM [PDict [("role", PStr "system");
                     ("content", PStr EmptyString)];
              PDict [("role", PStr "user"); ("content", PStr "q")]]
             (PStr "m2")]
  /\ PStr EmptyString <> PStr "You are a helpful assistant.".
Proof. split; [reflexivity | discriminate]. Qed.

(** ** The pipeline: reload and entry point *)

(** The coordinator keeps the valves it was built with. *)
Lemma Pipeline_init_valves {E : Env} v c :
  coordinator (Pipeline_init v) = Some c ->
  valves c = pipeline_valves (Pipeline_init v).
Proof.
  unfold Pipeline_init, AgentCoordinator_init. simpl.
  destruct (json_loads (AGENT_CONFIGS_JSON v)) as [cfgs | [cls msg]].
  - destruct (len cfgs); [| discriminate]. now intros [= <-].
  - destruct (decode_handled cls); [| discriminate]. now intros [= <-].
Qed.

Lemma on_valves_updated_valves {E : Env} self c c' :
  coordinator self = Some c ->
  coordinator (fst (on_valves_updated self)) = Some c' ->
  valves c' = valves c
  /\ pipeline_valves (fst (on_valves_updated self)) = pipeline_valves self.
Proof.
  unfold on_valves_updated. intros Hc. rewrite Hc.
  destruct (json_loads _) as [cfgs | [cls msg]];
    [destruct (len cfgs) | destruct (decode_handled cls)];
    simpl; try rewrite Hc; intros [= <-]; now split.
Qed.




(** C8: when the request's [agent_ids] is the empty list and the pipeline
    has its coordinator, [pipe] returns the single entry "No agents were
    specified to process this request." (never an empty list); the world is
    untouched and the trace is empty: the registry is not tested and the
    backend is not invoked. *)
Theorem empty_agent_ids_short_circuit {E : Env} (self : Pipeline)
        (c : AgentCoordinator) (user_message model_id : string)
        (messages : list pyval) (body : list (string * pyval)) (w : World) :
  coordinator self = Some c ->
  lookup "agent_ids" body = Some (PList []) ->
  pipe self user_message model_id messages body w
  = (inl [mkAgentResult "system_message"
            "No agents were specified to process this request."],
     w, []).
Proof.
  intros Hc Hb. unfold pipe, agent_ids_to_run. rewrite Hc, Hb. reflexivity.
Qed.

Lemma empty_agent_ids_short_circuit_witness :
  lookup "agent_ids" [("agent_ids", PList [])] = Some (PList [])
  /\ @pipe Scripted.env
       (mkPipeline (Scripted.test_valves "{}")
                   (Some (Sample.coordinator_of (PDict []))))
       "q" "m2" [] [("agent_ids", PList [])]
       [inl (Scripted.completion "hello")]
     = (inl [mkAgentResult "system_message"
               "No agents were specified to process this request."],
        [inl (Scripted.completion "hello")], []).
Proof.
  split; [reflexivity |].
  exact (@empty_agent_ids_short_circuit Scripted.env
           (mkPipeline (Scripted.test_valves "{}")
                       (Some (Sample.coordinator_of (PDict []))))
           _ "q" "m2" [] [("agent_ids", PList [])] _ eq_refl eq_refl).
Defined.

(** ** The default model seen from [pipe] *)

Section DefaultModel.
Context {E : Env}.
Variables (c : AgentCoordinator) (d' : string).

Lemma call_llm_with_default messages model_id w :
  _call_llm (with_default d' c) messages model_id w
  = _call_llm c messages model_id w.
Proof. reflexivity. Qed.

(** With a non-empty base the third level is never consulted. *)
Lemma resolve_model_id_with_default agent_config base_model_id :
  base_model_id <> EmptyString ->
  resolve_model_id (with_default d' c) agent_config base_model_id
  = resolve_model_id c agent_config base_model_id.
Proof.
  intros Hb. unfold resolve_model_id.
  destruct (get agent_config "model_id" PNone) as [own | e]; trivial.
  destruct (truthy own) eqn:Ho; cbn [negb]; [now rewrite Ho |].
  cbn [truthy]. apply String.eqb_neq in Hb. now rewrite Hb.
Qed.

Lemma process_agent_with_default user_query chat_history base_model_id a w :
  base_model_id <> EmptyString ->
  process_agent (with_default d' c) user_query chat_history base_model_id a w
  = process_agent c user_query chat_history base_model_id a w.
Proof.
  intros Hb. unfold process_agent. simpl agent_configs.
  apply bind_ext. intros cfg w1. destruct (negb (truthy cfg)); trivial.
  apply bind_ext. intros sp w2.
  now rewrite resolve_model_id_with_default.
Qed.

Lemma agents_loop_with_default user_query chat_history base_model_id ids
      acc w :
  base_model_id <> EmptyString ->
  agents_loop (with_default d' c) user_query chat_history base_model_id
              ids acc w
  = agents_loop c user_query chat_history base_model_id ids acc w.
Proof.
  intros Hb. revert acc w. induction ids as [| a ids IH]; intros acc w.
  - reflexivity.
  - simpl. etransitivity.
    + apply bind_cong. now apply process_agent_with_default.
    + apply bind_ext. intros r w1. apply IH.
Qed.

Lemma manage_with_default user_query chat_history ids base_model_id w :
  base_model_id <> EmptyString ->
  manage_multi_agent_flow (with_default d' c) user_query chat_history ids
                          base_model_id w
  = manage_multi_agent_flow c user_query chat_history ids base_model_id w.
Proof.
  intros Hb. unfold manage_multi_agent_flow. simpl agent_configs.
  apply bind_ext. intros _ w0. destruct (negb _); trivial.
  now apply agents_loop_with_default.
Qed.

End DefaultModel.

(** C10: through [pipe], an empty inbound [model_id] is replaced by the
    valve [DEFAULT_AGENT_MODEL_ID] before the coordinator is called.  So
    when that valve is non-empty the coordinator's own default is never
    consulted: [pipe] behaves the same whatever default the coordinator's
    valves hold.  And with the coordinator sharing the pipeline's valves,
    as the constructor arranges, resolving against the forwarded default
    (level b) gives what resolving against an empty base (level c) gives. *)
Theorem pipe_forwards_default {E : Env} (self : Pipeline)
        (c : AgentCoordinator) (user_message : string)
        (messages : list pyval) (body : list (string * pyval)) :
  coordinator self = Some c ->
  (forall a ids w,
     agent_ids_to_run body = a :: ids ->
     pipe self user_message EmptyString messages body w
     = manage_multi_agent_flow c user_message messages (a :: ids)
         (DEFAULT_AGENT_MODEL_ID (pipeline_valves self)) w)
  /\ (DEFAULT_AGENT_MODEL_ID (pipeline_valves self) <> EmptyString ->
      forall model_id d' w,
        pipe (pipeline_with_default d' self) user_message model_id
             messages body w
        = pipe self user_message model_id messages body w)
  /\ (valves c = pipeline_valves self ->
      forall agent_config,
        resolve_model_id c agent_config
                         (DEFAULT_AGENT_MODEL_ID (pipeline_valves self))
        = resolve_model_id c agent_config EmptyString).
Proof.
  intros Hc. split; [| split].
  - intros a ids w Hids. unfold pipe. rewrite Hc, Hids. reflexivity.
  - intros Hd model_id d' w. unfold pipe, pipeline_with_default.
    rewrite Hc. simpl.
    destruct (agent_ids_to_run body) as [| a ids]; trivial.
    apply manage_with_default.
    destruct (String.eqb_spec model_id EmptyString) as [-> | Hm];
      simpl; trivial.
  - intros Hv agent_config. unfold resolve_model_id. rewrite Hv.
    destruct (get agent_config "model_id" PNone) as [own | e]; trivial.
    destruct (truthy own) eqn:Ho; cbn [negb]; [now rewrite Ho |].
    cbn [truthy].
    destruct (String.eqb (DEFAULT_AGENT_MODEL_ID (pipeline_valves self))
                         EmptyString) eqn:Hd; cbn [negb]; trivial.
Qed.

Lemma pipe_forwards_default_witness :
  (forall w,
     @pipe Scripted.env
       (mkPipeline (Scripted.test_valves "{}")
                   (Some (Sample.coordinator_of Sample.registry_no_model)))
       "q" EmptyString [] [("agent_ids", PList [PStr "x"])] w
     = manage_multi_agent_flow
         (Sample.coordinator_of Sample.registry_no_model) "q" [] ["x"] "m3" w)
  /\ (forall model_id d' w,
        @pipe Scripted.env
          (pipeline_with_default d'
             (mkPipeline (Scripted.test_valves "{}")
                (Some (Sample.coordinator_of Sample.registry_no_model))))
          "q" model_id [] [("agent_ids", PList [PStr "x"])] w
        = pipe
            (mkPipeline (Scripted.test_valves "{}")
               (Some (Sample.coordinator_of Sample.registry_no_model)))
            "q" model_id [] [("agent_ids", PList [PStr "x"])] w)
  /\ resolve_model_id (Sample.coordinator_of Sample.registry_no_model)
                      (PDict [("system_prompt", PStr "P")]) "m3"
     = resolve_model_id (Sample.coordinator_of Sample.registry_no_model)
                        (PDict [("system_prompt", PStr "P")]) EmptyString.
Proof.
  destruct (@pipe_forwards_default Scripted.env
              (mkPipeline (Scripted.test_valves "{}")
                 (Some (Sample.coordinator_of Sample.registry_no_model)))
              _ "q" [] [("agent_ids", PList [PStr "x"])] eq_refl)
    as (H1 & H2 & H3).
  split; [| split].
  - intros w. exact (H1 "x" [] w eq_refl).
  - apply H2. discriminate.
  - exact (H3 eq_refl _).
Defined.

(** ** Outside the data model

    Runs that show what the hypotheses above keep out. *)

(** A configuration that is not an object, [{"x": 5}], makes the dispatch
    raise: [agent_config.get] at line 113. *)
Example ill_typed_config_raises :
  value (@manage_multi_agent_flow Scripted.env
           (Sample.coordinator_of (PDict [("x", PInt 5)]))
           "q" [] ["x"] "m2" [])
  = inr (PyExc "AttributeError" "'int' object has no attribute 'get'").
Proof. reflexivity. Qed.

(** A configuration that is the empty object counts as missing. *)
Example empty_config_counts_as_missing :
  @manage_multi_agent_flow Scripted.env
    (Sample.coordinator_of (PDict [("x", PDict []); ("y", PDict [])]))
    "q" [] ["x"] "m2" []
  = (inl [no_configuration "x"], [], [RegistryTest]).
Proof. reflexivity. Qed.

(** A blob that decodes to a number: the constructor of the coordinator
    raises at [len], and the pipeline is left without coordinator. *)
Example Pipeline_init_unsized :
  coordinator (@Pipeline_init Scripted.env (Scripted.test_valves "5")) = None.
Proof. reflexivity. Qed.

(** The same blob at a reload: the registry is replaced by the number and
    the [TypeError] of [len] leaves [on_valves_updated]. *)
Example reload_unsized_raises :
  @on_valves_updated Scripted.env
    (mkPipeline (Scripted.test_valves "5")
                (Some (Sample.coordinator_of Sample.registry_m1)))
  = (mkPipeline (Scripted.test_valves "5")
                (Some (Sample.coordinator_of (PInt 5))),
     inr (PyExc "TypeError" "object of type 'int' has no len()")).
Proof. reflexivity. Qed.

(** A pipeline without coordinator answers every request, whatever its
    [agent_ids], with the system error entry. *)
Lemma no_coordinator_system_error {E : Env} (self : Pipeline)
      user_message model_id messages body w :
  coordinator self = None ->
  pipe self user_message model_id messages body w
  = (inl [mkAgentResult "system_error"
            "Coordinator not initialized. Cannot process request."],
     w, []).
Proof. intros H. unfold pipe. now rewrite H. Qed.

(** Called directly with no ids, the coordinator returns the empty list;
    [pipe] never does so. *)
Example manage_no_ids :
  @manage_multi_agent_flow Scripted.env
    (Sample.coordinator_of Sample.registry_m1) "q" [] [] "m2" []
  = (inl [], [], [RegistryTest]).
Proof. reflexivity. Qed.

(** The end-to-end scenario of the specification. *)
Example end_to_end :
  value (@pipe Scripted.env
           (mkPipeline (Scripted.test_valves "{}")
                       (Some (Sample.coordinator_of Sample.registry_m1)))
           "q" "m2" [] [("agent_ids", PList [PStr "x"])]
           [inl (Scripted.completion "hello")])
  = inl [mkAgentResult "x" "hello"].
Proof. reflexivity. Qed.

(** History windowing on the two histories of the specification: of ten
    entries the backend sees the last four, of two it sees both. *)
Example history_window_of_ten :
  llm_calls
    (trace (@manage_multi_agent_flow Scripted.env
              (Sample.coordinator_of Sample.registry_m1)
              "q" Sample.history10 ["x"] "m2" []))
  = [CallLLM
       ([system_entry (PStr "P")]
          ++ skipn 6 Sample.history10 ++ [user_entry "q"])%list
       (PStr "m1")].
Proof. reflexivity. Qed.

Example history_window_of_two :
  llm_calls
    (trace (@manage_multi_agent_flow Scripted.env
              (Sample.coordinator_of Sample.registry_m1)
              "q" (firstn 2 Sample.history10) ["x"] "m2" []))
  = [CallLLM
       ([system_entry (PStr "P")]
          ++ firstn 2 Sample.history10 ++ [user_entry "q"])%list
       (PStr "m1")].
Proof. reflexivity. Qed.

(** * Further properties of the code *)

(** ** The backend call, case by case *)

Section BackendCases.
Context {E : Env}.

Lemma call_llm_try_unfold url payload headers w :
  call_llm_try url payload headers w
  = (response <- post url payload headers ;;
     raise_for_status response ;;;
     response_json <- Response_json response ;;
     read_completion response_json) w.
Proof. reflexivity. Qed.

Ltac finish_case := first [ reflexivity | eexists; split; reflexivity ].

Ltac split_case :=
  match goal with
  | H : ?x = _ |- context [?x] => rewrite H
  | |- context [match lookup ?k ?l with _ => _ end] =>
      destruct (lookup k l) eqn:?
  | |- context [match ?v with PNone => _ | _ => _ end] =>
      is_var v; destruct v
  | |- context [match ?v with nil => _ | _ => _ end] =>
      is_var v; destruct v
  | |- context [match ?v with EmptyString => _ | _ => _ end] =>
      is_var v; destruct v
  | |- context [if ?b then _ else _] => destruct b eqn:?
  end.

(** Reading a decoded body, with the handlers around it, touches nothing
    and gives either the stripped content of a well-shaped completion or
    a string that reports a failure. *)
Lemma read_completion_cases response_json w :
  match first_choice_content response_json with
  | Some content =>
      try_except (read_completion response_json) call_llm_except w
      = (inl (str_strip content), w, [])
  | None =>
      exists s,
        try_except (read_completion response_json) call_llm_except w
        = (inl s, w, [])
        /\ is_error_string s = true
  end.
Proof.
  unfold first_choice_content, read_completion, try_except, bind, lift,
    ret, raise, get, item, item0, strip, call_llm_except, AttributeError.
  repeat (cbn -[lookup]; try split_case); finish_case.
Qed.


(** The whole of [_call_llm] when a key is configured, by what the
    network answers. *)
Lemma call_llm_table self messages model_id w :
  OPENAI_API_KEY (valves self) <> EmptyString ->
  let url := request_url (valves self) in
  let payload := request_payload messages model_id in
  let headers := request_headers (valves self) in
  let tr := [CallLLM messages model_id; HttpPost url payload headers] in
  match requests_post url payload headers w with
  | (inr (cls, msg), w1) =>
      _call_llm self messages model_id w
      = (inl ("Error: An unexpected error occurred during LLM call: " ++ msg),
         w1, tr)
  | (inl r, w1) =>
      if is_error_status r then
        _call_llm self messages model_id w
        = (inl ("Error: HTTP error " ++ str_of_int (status_code r)
                  ++ " - No response body"), w1, tr)
      else
        match json_body r with
        | inr (cls, msg) =>
            _call_llm self messages model_id w
            = (inl ("Error: An unexpected error occurred during LLM call: "
                      ++ msg), w1, tr)
        | inl response_json =>
            match first_choice_content response_json with
            | Some content =>
                _call_llm self messages model_id w
                = (inl (str_strip content), w1, tr)
            | None =>
                exists s,
                  _call_llm self messages model_id w = (inl s, w1, tr)
                  /\ is_error_string s = true
            end
        end
  end.
Proof.
  intros Hk. apply String.eqb_neq in Hk.
  unfold _call_llm, request_url, request_payload, request_headers.
  cbn [truthy]. rewrite Hk. cbn [negb]. cbv zeta.
  set (url := (rstrip_slash _ ++ _)%string).
  set (payload := PDict _). set (headers := [_; _]).
  change (call_llm_try url payload headers)
    with (response <- post url payload headers ;;
          raise_for_status response ;;;
          response_json <- Response_json response ;;
          read_completion response_json).
  unfold try_except, bind, emit, post, raise_for_status, Response_json,
    ret, raise, Response_bool.
  destruct (requests_post url payload headers w) as [[r | [cls msg]] w0];
    [| reflexivity].
  destruct (is_error_status r) eqn:Hs; cbn -[is_error_status].
  { unfold Response_bool. rewrite Hs. reflexivity. }
  destruct (json_body r) as [rj | [cls msg]]; cbn; [| reflexivity].
  pose proof (read_completion_cases rj w0) as Hc. unfold try_except in Hc.
  destruct (first_choice_content rj) as [content |].
  - destruct (read_completion rj w0) as [[[x | e] w2] t2]; cbn in *.
    + injection Hc as -> -> ->. reflexivity.
    + destruct (call_llm_except e w2) as [[x w3] t3].
      injection Hc as -> -> Ht. apply app_eq_nil in Ht as [-> ->].
      reflexivity.
  - destruct Hc as (s & Hc & Hs'). exists s. split; [| exact Hs'].
    destruct (read_completion rj w0) as [[[x | e] w2] t2]; cbn in *.
    + injection Hc as -> -> ->. reflexivity.
    + destruct (call_llm_except e w2) as [[x w3] t3].
      injection Hc as -> -> Ht. apply app_eq_nil in Ht as [-> ->].
      reflexivity.
Qed.
End BackendCases.

(** X1: with a key configured, when the POST answers with a status below
    400 or from 600 on, and a body that decodes to a well-shaped completion
    (a [choices] list whose first item has a non-empty [message] object
    with a string [content], or none), [_call_llm] returns that content
    stripped, after exactly one POST. *)
Theorem completion_content_is_returned {E : Env} (self : AgentCoordinator)
        (messages : list pyval) (model_id : pyval) (w w1 : World)
        (r : Response) (response_json : pyval) (content : string) :
  OPENAI_API_KEY (valves self) <> EmptyString ->
  requests_post (request_url (valves self))
                (request_payload messages model_id)
                (request_headers (valves self)) w = (inl r, w1) ->
  is_error_status r = false ->
  json_body r = inl response_json ->
  first_choice_content response_json = Some content ->
  _call_llm self messages model_id w
  = (inl (str_strip content), w1,
     [CallLLM messages model_id;
      HttpPost (request_url (valves self))
               (request_payload messages model_id)
               (request_headers (valves self))]).
Proof.
  intros Hk Hp Hs Hj Hc.
  pose proof (call_llm_table self messages model_id w Hk) as T.
  cbv zeta in T. rewrite Hp, Hs, Hj, Hc in T. exact T.
Qed.

Lemma completion_content_is_returned_witness :
  OPENAI_API_KEY (valves (Sample.coordinator_of Sample.registry_m1))
  <> EmptyString
  /\ first_choice_content
       (PDict [("choices",
                PList [PDict [("message",
                               PDict [("role", PStr "assistant");
                                      ("content", PStr "hello")])]])])
     = Some "hello"
  /\ value (@_call_llm Scripted.env
              (Sample.coordinator_of Sample.registry_m1)
              [user_entry "q"] (PStr "m1")
              [inl (Scripted.completion "hello")])
     = inl "hello".
Proof.
  split; [discriminate | split; [reflexivity |]].
  rewrite (@completion_content_is_returned Scripted.env
             (Sample.coordinator_of Sample.registry_m1)
             [user_entry "q"] (PStr "m1")
             [inl (Scripted.completion "hello")] []
             (Scripted.completion "hello") _ "hello"
             ltac:(discriminate) eq_refl eq_refl eq_refl eq_refl).
  reflexivity.
Defined.

(** X2: whatever [_call_llm] returns is either a string that starts with
    "Error: ", or the stripped content of a well-shaped completion that
    the POST answered with a non-error status. *)
Theorem failure_is_error_string {E : Env} (self : AgentCoordinator)
        (messages : list pyval) (model_id : pyval) (w w' : World)
        (s : string) (t : list event) :
  _call_llm self messages model_id w = (inl s, w', t) ->
  is_error_string s = true
  \/ exists r response_json content,
       requests_post (request_url (valves self))
                     (request_payload messages model_id)
                     (request_headers (valves self)) w = (inl r, w')
       /\ is_error_status r = false
       /\ json_body r = inl response_json
       /\ first_choice_content response_json = Some content
       /\ s = str_strip content.
Proof.
  intros Hrun.
  destruct (String.eqb_spec (OPENAI_API_KEY (valves self)) EmptyString)
    as [Hk | Hk].
  - rewrite call_llm_missing_key in Hrun by exact Hk.
    injection Hrun as <- _ _. now left.
  - pose proof (call_llm_table self messages model_id w Hk) as T.
    cbv zeta in T.
    destruct (requests_post _ _ _ w) as [[r | [cls msg]] w1] eqn:Hp.
    2: { rewrite T in Hrun. injection Hrun as <- _ _. now left. }
    destruct (is_error_status r) eqn:Hs.
    { rewrite T in Hrun. injection Hrun as <- _ _. now left. }
    destruct (json_body r) as [response_json | [cls msg]] eqn:Hj.
    2: { rewrite T in Hrun. injection Hrun as <- _ _. now left. }
    destruct (first_choice_content response_json) as [content |] eqn:Hc.
    + rewrite T in Hrun. injection Hrun as <- <- _. right.
      exists r, response_json, content. repeat split; trivial.
    + destruct T as (s0 & T & Herr). rewrite T in Hrun.
      injection Hrun as <- _ _. now left.
Qed.

Lemma failure_is_error_string_witness :
  is_error_string "Error: HTTP error 404 - No response body" = true
  \/ exists r response_json content,
       @requests_post Scripted.env
         (request_url (valves (Sample.coordinator_of Sample.registry_m1)))
         (request_payload [user_entry "q"] (PStr "m1"))
         (request_headers (valves (Sample.coordinator_of Sample.registry_m1)))
         [inl (mkResponse 404 "not found" (inl PNone))] = (inl r, [])
       /\ is_error_status r = false
       /\ json_body r = inl response_json
       /\ first_choice_content response_json = Some content
       /\ "Error: HTTP error 404 - No response body"
          = @str_strip Scripted.env content.
Proof.
  exact (@failure_is_error_string Scripted.env
           (Sample.coordinator_of Sample.registry_m1)
           [user_entry "q"] (PStr "m1")
           [inl (mkResponse 404 "not found" (inl PNone))] [] _ _ eq_refl).
Defined.

(** X3: with a key configured, a response whose status is from 400 to
    599 is reported as "Error: HTTP error <status> - No response body":
    the body of the response never appears in the message, because a
    response of such a status is falsy. *)
Theorem http_error_hides_body {E : Env} (self : AgentCoordinator)
        (messages : list pyval) (model_id : pyval) (w w1 : World)
        (r : Response) :
  OPENAI_API_KEY (valves self) <> EmptyString ->
  requests_post (request_url (valves self))
                (request_payload messages model_id)
                (request_headers (valves self)) w = (inl r, w1) ->
  (400 <= status_code r < 600)%Z ->
  value (_call_llm self messages model_id w)
  = inl ("Error: HTTP error " ++ str_of_int (status_code r)
           ++ " - No response body").
Proof.
  intros Hk Hp Hs.
  pose proof (call_llm_table self messages model_id w Hk) as T.
  cbv zeta in T. rewrite Hp in T.
  replace (is_error_status r) with true in T.
  - now rewrite T.
  - unfold is_error_status. symmetry. apply andb_true_iff.
    split; [apply Z.leb_le | apply Z.ltb_lt]; lia.
Qed.

Lemma http_error_hides_body_witness :
  (400 <= 503 < 600)%Z
  /\ value (@_call_llm Scripted.env
              (Sample.coordinator_of Sample.registry_m1)
              [user_entry "q"] (PStr "m1")
              [inl (mkResponse 503 "upstream overloaded" (inl PNone))])
     = inl "Error: HTTP error 503 - No response body".
Proof.
  split; [lia |].
  exact (@http_error_hides_body Scripted.env
           (Sample.coordinator_of Sample.registry_m1)
           [user_entry "q"] (PStr "m1")
           [inl (mkResponse 503 "upstream overloaded" (inl PNone))] []
           (mkResponse 503 "upstream overloaded" (inl PNone))
           ltac:(discriminate) eq_refl ltac:(simpl; lia)).
Defined.

(** The trace of one backend call. *)
Lemma call_llm_trace_exact {E : Env} self messages model_id w :
  trace (_call_llm self messages model_id w)
  = CallLLM messages model_id
      :: (if String.eqb (OPENAI_API_KEY (valves self)) EmptyString then []
          else [HttpPost (request_url (valves self))
                         (request_payload messages model_id)
                         (request_headers (valves self))]).
Proof.
  destruct (String.eqb_spec (OPENAI_API_KEY (valves self)) EmptyString)
    as [Hk | Hk].
  - now rewrite call_llm_missing_key.
  - pose proof (call_llm_table self messages model_id w Hk) as T.
    cbv zeta in T.
    destruct (requests_post _ _ _ w) as [[r | [cls msg]] w1];
      [| now rewrite T].
    destruct (is_error_status r); [now rewrite T |].
    destruct (json_body r) as [response_json | [cls msg]];
      [| now rewrite T].
    destruct (first_choice_content response_json);
      [now rewrite T | destruct T as (s & -> & _); reflexivity].
Qed.

(** X4: one backend call makes no request at all when the API key is
    empty (it returns the fixed configuration error and leaves the world
    as it was), and otherwise exactly one POST, never a second one, to
    [<base url without trailing slashes>/chat/completions] with the body
    [{model, messages, stream: false}] and the bearer header. *)
Theorem one_post_per_call {E : Env} (self : AgentCoordinator)
        (messages : list pyval) (model_id : pyval) (w : World) :
  if String.eqb (OPENAI_API_KEY (valves self)) EmptyString then
    _call_llm self messages model_id w
    = (inl "Error: OPENAI_API_KEY not configured.", w,
       [CallLLM messages model_id])
  else
    trace (_call_llm self messages model_id w)
    = [CallLLM messages model_id;
       HttpPost
         (rstrip_slash (OPENAI_API_BASE_URL (valves self))
            ++ "/chat/completions")
         (PDict [("model", model_id); ("messages", PList messages);
                 ("stream", PBool false)])
         [("Authorization", "Bearer " ++ OPENAI_API_KEY (valves self));
          ("Content-Type", "application/json")]].
Proof.
  pose proof (call_llm_trace_exact self messages model_id w) as T.
  destruct (String.eqb_spec (OPENAI_API_KEY (valves self)) EmptyString)
    as [Hk | Hk].
  - now apply call_llm_missing_key.
  - exact T.
Qed.

(** ** The base URL *)

Lemma rstrip_slash_slashes n : rstrip_slash (slashes n) = EmptyString.
Proof. induction n as [| n IH]; simpl; [| rewrite IH]; reflexivity. Qed.

Lemma rstrip_slash_app_slashes s n :
  rstrip_slash (s ++ slashes n) = rstrip_slash s.
Proof.
  induction s as [| c s IH]; simpl.
  - apply rstrip_slash_slashes.
  - now rewrite IH.
Qed.

(** X5: trailing slashes of [OPENAI_API_BASE_URL] make no difference:
    a backend call behaves the same with the base URL [u] and with [u]
    followed by any number of slashes. *)
Theorem base_url_trailing_slashes {E : Env} (self : AgentCoordinator)
        (u : string) (n : nat) (messages : list pyval) (model_id : pyval)
        (w : World) :
  _call_llm (with_base_url (u ++ slashes n) self) messages model_id w
  = _call_llm (with_base_url u self) messages model_id w.
Proof.
  unfold _call_llm, with_base_url. simpl valves.
  cbn [OPENAI_API_BASE_URL OPENAI_API_KEY].
  now rewrite rstrip_slash_app_slashes.
Qed.

(** ** Dispatch without an API key *)

Section Untouched.
Context {E : Env}.

(** [m] leaves the world as it was and makes no POST. *)
Definition untouched {A} (m : M A) : Prop :=
  forall w, snd (fst (m w)) = w
            /\ Forall (fun e => is_HttpPost e = false) (trace (m w)).

Lemma untouched_ret {A} (a : A) : untouched (ret a).
Proof. intros w. split; [reflexivity | constructor]. Qed.

Lemma untouched_lift {A} (r : result A) : untouched (lift r).
Proof. destruct r; intros w; (split; [reflexivity | constructor]). Qed.

Lemma untouched_emit e : is_HttpPost e = false -> untouched (emit e).
Proof. intros H w. split; [reflexivity | now repeat constructor]. Qed.

Lemma untouched_bind {A B} (m : M A) (k : A -> M B) :
  untouched m -> (forall a, untouched (k a)) -> untouched (bind m k).
Proof.
  intros Hm Hk w. destruct (Hm w) as [Hw Ht]. unfold bind, trace in *.
  destruct (m w) as [[[a | e] w1] t1]; simpl in *; subst w1.
  - destruct (Hk a w) as [Hw' Ht']. unfold trace in Ht'.
    destruct (k a w) as [[r w2] t2]; simpl in *.
    split; [exact Hw' | apply Forall_app; now split].
  - now split.
Qed.

Lemma untouched_call_llm self messages model_id :
  OPENAI_API_KEY (valves self) = EmptyString ->
  untouched (_call_llm self messages model_id).
Proof.
  intros Hk w. rewrite call_llm_missing_key by exact Hk.
  split; [reflexivity | now repeat constructor].
Qed.

Lemma untouched_process_agent self q h base a :
  OPENAI_API_KEY (valves self) = EmptyString ->
  untouched (process_agent self q h base a).
Proof.
  intros Hk. unfold process_agent.
  apply untouched_bind; [apply untouched_lift | intros cfg].
  destruct (negb (truthy cfg)); [apply untouched_ret |].
  apply untouched_bind; [apply untouched_lift | intros sp].
  apply untouched_bind; [apply untouched_lift | intros model].
  apply untouched_bind; [now apply untouched_call_llm | intros r].
  apply untouched_ret.
Qed.

Lemma untouched_agents_loop self q h base ids acc :
  OPENAI_API_KEY (valves self) = EmptyString ->
  untouched (agents_loop self q h base ids acc).
Proof.
  intros Hk. revert acc. induction ids as [| a ids IH]; intros acc; simpl.
  - apply untouched_ret.
  - apply untouched_bind; [now apply untouched_process_agent | intros r].
    apply IH.
Qed.

End Untouched.

(** X6: when the API key is empty a dispatch never touches the network,
    whatever the registry and the requested ids: the world comes back as
    it was and the trace holds no POST. *)
Theorem no_key_no_network {E : Env} (self : AgentCoordinator)
        (user_query : string) (chat_history : list pyval)
        (agent_ids : list string) (base_model_id : string) (w : World) :
  OPENAI_API_KEY (valves self) = EmptyString ->
  snd (fst (manage_multi_agent_flow self user_query chat_history agent_ids
                                    base_model_id w)) = w
  /\ Forall (fun e => is_HttpPost e = false)
            (trace (manage_multi_agent_flow self user_query chat_history
                                            agent_ids base_model_id w)).
Proof.
  intros Hk. revert w. unfold manage_multi_agent_flow.
  apply untouched_bind; [now apply untouched_emit | intros _].
  destruct (negb _); [apply untouched_ret |].
  now apply untouched_agents_loop.
Qed.

Lemma no_key_no_network_witness :
  OPENAI_API_KEY (valves (keyless Sample.registry_m1)) = EmptyString
  /\ snd (fst (@manage_multi_agent_flow Scripted.env
                 (keyless Sample.registry_m1) "q" [] ["x"; "y"] "m2"
                 [inl (Scripted.completion "hello")]))
     = [inl (Scripted.completion "hello")]
  /\ Forall (fun e => is_HttpPost e = false)
            (trace (@manage_multi_agent_flow Scripted.env
                      (keyless Sample.registry_m1) "q" [] ["x"; "y"] "m2"
                      [inl (Scripted.completion "hello")])).
Proof.
  split; [reflexivity |].
  exact (@no_key_no_network Scripted.env (keyless Sample.registry_m1)
           "q" [] ["x"; "y"] "m2" [inl (Scripted.completion "hello")]
           eq_refl).
Defined.

Section NoKeyResults.
Context {E : Env}.
Variables (self : AgentCoordinator) (user_query : string)
          (chat_history : list pyval) (base_model_id : string).
Hypothesis Hreg : is_registry (agent_configs self) = true.
Hypothesis Hkey : OPENAI_API_KEY (valves self) = EmptyString.

Lemma process_agent_no_key a w :
  exists t,
    process_agent self user_query chat_history base_model_id a w
    = (inl (if has_config (agent_configs self) a then not_configured a
            else no_configuration a), w, t).
Proof.
  unfold has_config.
  destruct (agent_configs self) as [| | | | | | kvs] eqn:Hc;
    try discriminate.
  destruct (lookup a kvs) as [cfg |] eqn:Hl.
  - simpl in Hreg. rewrite forallb_forall in Hreg.
    specialize (Hreg _ (lookup_in _ _ Hl)). simpl in Hreg.
    destruct cfg as [| | | | | | [| kv ckvs]]; try discriminate.
    + exists []. eapply process_agent_missing; [eassumption |].
      now rewrite Hl.
    + destruct (resolve_model_id_dict self base_model_id (kv :: ckvs))
        as [model Hm].
      rewrite (process_agent_configured _ _ _ _ Hc Hl Hm).
      unfold bind. rewrite call_llm_missing_key by exact Hkey.
      simpl. eexists. reflexivity.
  - exists []. eapply process_agent_missing; [eassumption |].
    now rewrite Hl.
Qed.

Lemma agents_loop_no_key ids w :
  exists t,
    agents_loop self user_query chat_history base_model_id ids [] w
    = (inl (map (fun a => if has_config (agent_configs self) a
                          then not_configured a else no_configuration a)
                ids), w, t).
Proof.
  revert w. induction ids as [| a ids IH]; intros w.
  - now exists [].
  - rewrite agents_loop_cons. destruct (process_agent_no_key a w) as [t1 H1].
    destruct (IH w) as [t2 H2].
    unfold bind. rewrite H1, H2. simpl. eexists. reflexivity.
Qed.

End NoKeyResults.

(** X7: with a well-typed registry and an empty API key, a dispatch
    returns, for each requested id in order, the "configurations not
    loaded" entry when the registry is empty, and otherwise the entry
    "Error: OPENAI_API_KEY not configured." for an id with a non-empty
    configuration and the "No configuration found" entry for any other. *)
Theorem missing_key_results {E : Env} (self : AgentCoordinator)
        (user_query : string) (chat_history : list pyval)
        (agent_ids : list string) (base_model_id : string) (w : World) :
  is_registry (agent_configs self) = true ->
  OPENAI_API_KEY (valves self) = EmptyString ->
  value (manage_multi_agent_flow self user_query chat_history agent_ids
                                 base_model_id w)
  = inl (map (fun a =>
                if negb (truthy (agent_configs self)) then not_loaded a
                else if has_config (agent_configs self) a
                     then not_configured a
                     else no_configuration a) agent_ids).
Proof.
  intros Hr Hk. unfold manage_multi_agent_flow, bind, emit.
  destruct (negb (truthy (agent_configs self))).
  - unfold ret, value. simpl. now rewrite fold_left_snoc.
  - destruct (agents_loop_no_key self user_query chat_history base_model_id
                Hr Hk agent_ids w) as [t ->].
    reflexivity.
Qed.

Lemma missing_key_results_witness :
  is_registry (agent_configs (keyless Sample.registry_m1)) = true
  /\ value (@manage_multi_agent_flow Scripted.env
              (keyless Sample.registry_m1) "q" [] ["x"; "y"] "m2"
              [inl (Scripted.completion "hello")])
     = inl [not_configured "x"; no_configuration "y"].
Proof.
  split; [reflexivity |].
  exact (@missing_key_results Scripted.env (keyless Sample.registry_m1)
           "q" [] ["x"; "y"] "m2" [inl (Scripted.completion "hello")]
           eq_refl eq_refl).
Defined.

(** ** What a dispatch asks of the backend *)

Section Plan.
Context {E : Env}.
Variables (self : AgentCoordinator) (user_query : string)
          (chat_history : list pyval) (base_model_id : string).

Local Abbreviation step := (process_agent self user_query chat_history base_model_id).
Local Abbreviation loop := (agents_loop self user_query chat_history base_model_id).
Local Abbreviation plan := (agent_plan self user_query chat_history base_model_id).
Local Abbreviation planned := (planned_calls self user_query chat_history base_model_id).

(** One pass of the loop is its plan followed by the backend call. *)
Lemma process_agent_plan a w :
  step a w
  = match plan a with
    | inr e => (inr e, w, [])
    | inl None => (inl (no_configuration a), w, [])
    | inl (Some (messages, model_id)) =>
        (content <- _call_llm self messages model_id ;;
         ret (mkAgentResult a content)) w
    end.
Proof.
  unfold process_agent, agent_plan.
  destruct (get (agent_configs self) a PNone) as [cfg | e]; [| reflexivity].
  simpl lift. rewrite bind_ret_l.
  destruct (negb (truthy cfg)); [reflexivity |].
  destruct (get cfg "system_prompt" _) as [sp | e]; [| reflexivity].
  simpl lift. rewrite bind_ret_l.
  destruct (resolve_model_id self cfg base_model_id) as [model | e];
    [| reflexivity].
  simpl lift. now rewrite bind_ret_l.
Qed.

(** The posts of a trace are never more than its backend calls, when the
    trace is made of whole backend calls. *)
Lemma call_llm_counts messages model_id w :
  llm_calls (trace (_call_llm self messages model_id w))
  = [CallLLM messages model_id]
  /\ List.length (filter is_HttpPost
                         (trace (_call_llm self messages model_id w))) <= 1.
Proof.
  rewrite call_llm_trace_exact.
  destruct (String.eqb _ _); simpl; split; trivial; lia.
Qed.

Lemma trace_bind {A B} (m : M A) (k : A -> M B) w :
  trace (bind m k w)
  = match m w with
    | (inl a, w1, t1) => (t1 ++ trace (k a w1))%list
    | (inr _, _, t1) => t1
    end.
Proof.
  unfold bind, trace. destruct (m w) as [[[a | e] w1] t1]; trivial.
  now destruct (k a w1) as [[r w2] t2].
Qed.

Lemma agents_loop_planned ids acc w :
  llm_calls (trace (loop ids acc w)) = planned ids
  /\ List.length (filter is_HttpPost (trace (loop ids acc w)))
     <= List.length (planned ids).
Proof.
  revert acc w. induction ids as [| a ids IH]; intros acc w; simpl.
  - split; [reflexivity | apply Nat.le_refl].
  - rewrite trace_bind, process_agent_plan.
    destruct (plan a) as [[[messages model_id] |] | e]; simpl.
    + destruct (call_llm_run self messages model_id w)
        as (s & w1 & t1 & Hrun & _).
      destruct (call_llm_counts messages model_id w) as [Hc Hp].
      unfold bind. rewrite Hrun in *. unfold trace in Hc, Hp.
      simpl in Hc, Hp. simpl.
      destruct (IH (acc ++ [mkAgentResult a s])%list w1) as [IH1 IH2].
      unfold llm_calls in *. simpl.
      rewrite app_nil_r, !filter_app, !length_app, IH1.
      injection Hc as Hc. rewrite Hc. simpl. split; [reflexivity | lia].
    + apply IH.
    + split; [reflexivity | apply Nat.le_refl].
Qed.

Lemma planned_calls_length ids :
  List.length (planned ids) <= List.length ids.
Proof.
  induction ids as [| a ids IH]; simpl; trivial.
  destruct (plan a) as [[[messages model_id] |] | e]; simpl; lia.
Qed.

End Plan.

Section PlanOfDispatch.
Context {E : Env}.
Variables (self : AgentCoordinator) (user_query : string)
          (chat_history : list pyval) (base_model_id : string).

Lemma manage_planned ids w :
  llm_calls (trace (manage_multi_agent_flow self user_query chat_history ids
                                            base_model_id w))
  = (if truthy (agent_configs self)
     then planned_calls self user_query chat_history base_model_id ids
     else [])
  /\ List.length
       (filter is_HttpPost
               (trace (manage_multi_agent_flow self user_query chat_history
                                               ids base_model_id w)))
     <= List.length
          (llm_calls
             (trace (manage_multi_agent_flow self user_query chat_history
                                             ids base_model_id w))).
Proof.
  unfold manage_multi_agent_flow. rewrite trace_bind. unfold emit at 1 2 3.
  destruct (truthy (agent_configs self)); simpl negb; cbv iota.
  - destruct (agents_loop_planned self user_query chat_history
                base_model_id ids [] w) as [H1 H2].
    unfold llm_calls in *. simpl. rewrite H1. split; [reflexivity | exact H2].
  - simpl. split; [reflexivity | apply Nat.le_refl].
Qed.

Lemma planned_calls_shape ids :
  Forall (fun e =>
            match e with
            | CallLLM messages _ =>
                exists system_prompt,
                  messages
                  = build_messages system_prompt chat_history user_query
            | _ => True
            end)
         (planned_calls self user_query chat_history base_model_id ids).
Proof.
  induction ids as [| a ids IH]; simpl; [constructor |].
  unfold agent_plan.
  destruct (get (agent_configs self) a PNone) as [cfg | e]; [| constructor].
  destruct (negb (truthy cfg)); [exact IH |].
  destruct (get cfg "system_prompt" _) as [sp | e]; [| constructor].
  destruct (resolve_model_id self cfg base_model_id) as [model | e];
    [| constructor].
  constructor; [now exists sp | exact IH].
Qed.

Lemma planned_calls_registry ids :
  is_registry (agent_configs self) = true ->
  List.length (planned_calls self user_query chat_history base_model_id ids)
  = List.length (filter (has_config (agent_configs self)) ids).
Proof.
  intros Hr. destruct (agent_configs self) as [| | | | | | kvs] eqn:Hc;
    try discriminate.
  induction ids as [| a ids IH]; simpl; trivial.
  unfold agent_plan. rewrite Hc. simpl get.
  destruct (lookup a kvs) as [cfg |] eqn:Hl; [| exact IH].
  simpl in Hr. rewrite forallb_forall in Hr.
  specialize (Hr _ (lookup_in _ _ Hl)). simpl in Hr.
  destruct cfg as [| | | | | | [| kv ckvs]]; try discriminate.
  - exact IH.
  - cbn [truthy negb].
    destruct (resolve_model_id_dict self base_model_id (kv :: ckvs))
      as [model ->].
    simpl. now rewrite IH.
Qed.

End PlanOfDispatch.

(** X8: what a dispatch asks of the backend does not depend on what the
    backend answers: from any two states of the world, the same backend
    calls are made, with the same messages and models, in the same
    order. *)
Theorem backend_calls_ignore_answers {E : Env} (self : AgentCoordinator)
        (user_query : string) (chat_history : list pyval)
        (agent_ids : list string) (base_model_id : string)
        (w1 w2 : World) :
  llm_calls (trace (manage_multi_agent_flow self user_query chat_history
                                            agent_ids base_model_id w1))
  = llm_calls (trace (manage_multi_agent_flow self user_query chat_history
                                              agent_ids base_model_id w2)).
Proof.
  destruct (manage_planned self user_query chat_history base_model_id
                           agent_ids w1) as [-> _].
  destruct (manage_planned self user_query chat_history base_model_id
                           agent_ids w2) as [-> _].
  reflexivity.
Qed.

(** X9: a dispatch makes at most one backend call per requested id and at
    most one POST per backend call, whatever the registry holds. *)
Theorem network_use_is_bounded {E : Env} (self : AgentCoordinator)
        (user_query : string) (chat_history : list pyval)
        (agent_ids : list string) (base_model_id : string) (w : World) :
  let t := trace (manage_multi_agent_flow self user_query chat_history
                                          agent_ids base_model_id w) in
  List.length (filter is_HttpPost t) <= List.length (llm_calls t)
  /\ List.length (llm_calls t) <= List.length agent_ids.
Proof.
  intros t. subst t.
  destruct (manage_planned self user_query chat_history base_model_id
                           agent_ids w) as [H1 H2].
  split; [exact H2 |]. rewrite H1.
  destruct (truthy (agent_configs self)); [| simpl; lia].
  apply planned_calls_length.
Qed.

(** X10: with a well-typed registry a dispatch makes exactly one backend
    call for each requested id that the registry maps to a non-empty
    configuration, repeats counted, and none for the other ids. *)
Theorem one_call_per_configured_id {E : Env} (self : AgentCoordinator)
        (user_query : string) (chat_history : list pyval)
        (agent_ids : list string) (base_model_id : string) (w : World) :
  is_registry (agent_configs self) = true ->
  List.length
    (llm_calls (trace (manage_multi_agent_flow self user_query chat_history
                                               agent_ids base_model_id w)))
  = List.length (filter (has_config (agent_configs self)) agent_ids).
Proof.
  intros Hr.
  destruct (manage_planned self user_query chat_history base_model_id
                           agent_ids w) as [-> _].
  destruct (truthy (agent_configs self)) eqn:Ht.
  - now apply planned_calls_registry.
  - destruct (agent_configs self) as [| | | | | | [| kv kvs]];
      try discriminate.
    simpl. induction agent_ids as [| a ids IH]; simpl; trivial.
Qed.

Lemma one_call_per_configured_id_witness :
  is_registry (agent_configs (Sample.coordinator_of Sample.registry_m1))
  = true
  /\ List.length
       (llm_calls
          (trace (@manage_multi_agent_flow Scripted.env
                    (Sample.coordinator_of Sample.registry_m1) "q" []
                    ["x"; "y"; "x"] "m2" [])))
     = 2.
Proof.
  split; [reflexivity |].
  exact (@one_call_per_configured_id Scripted.env
           (Sample.coordinator_of Sample.registry_m1) "q" []
           ["x"; "y"; "x"] "m2" [] eq_refl).
Defined.

(** X11: every backend call of a dispatch carries at least 2 and at most
    6 messages (the system message, at most 4 of the history, the user
    message), however long the history is. *)
Theorem context_size_bounds {E : Env} (self : AgentCoordinator)
        (user_query : string) (chat_history : list pyval)
        (agent_ids : list string) (base_model_id : string) (w : World) :
  Forall (fun e =>
            match e with
            | CallLLM messages _ => 2 <= List.length messages <= 6
            | _ => True
            end)
         (trace (manage_multi_agent_flow self user_query chat_history
                                         agent_ids base_model_id w)).
Proof.
  apply Forall_forall. intros e He.
  destruct e as [| messages model_id |]; trivial.
  assert (Hin : In (CallLLM messages model_id)
                   (llm_calls
                      (trace (manage_multi_agent_flow self user_query
                                chat_history agent_ids base_model_id w)))).
  { apply filter_In. now split. }
  destruct (manage_planned self user_query chat_history base_model_id
                           agent_ids w) as [H1 _].
  rewrite H1 in Hin.
  destruct (truthy (agent_configs self)); [| destruct Hin].
  pose proof (planned_calls_shape self user_query chat_history
                                  base_model_id agent_ids) as Hs.
  rewrite Forall_forall in Hs. specialize (Hs _ Hin).
  destruct Hs as [sp ->]. rewrite build_messages_eq.
  cbn [List.length]. rewrite length_app, last_n_length.
  cbn [List.length]. lia.
Qed.

(** ** Configurations that are empty or ill-typed *)

(** X12: an id that the registry maps to a falsy value (the empty object,
    [null], [0], the empty string or list) is treated like an absent id:
    it gets the "No configuration found" entry at its place, costs no
    backend call, and the ids around it are processed as without it. *)
Theorem falsy_config_counts_as_missing {E : Env} (self : AgentCoordinator)
        (user_query : string) (chat_history : list pyval)
        (base_model_id : string) (kvs : list (string * pyval))
        (a : string) (v : pyval) :
  agent_configs self = PDict kvs ->
  lookup a kvs = Some v ->
  truthy v = false ->
  forall pre post w,
    manage_multi_agent_flow self user_query chat_history (pre ++ a :: post)
                            base_model_id w
    = (emit RegistryTest ;;;
       before <- agents_loop self user_query chat_history base_model_id
                             pre [] ;;
       after <- agents_loop self user_query chat_history base_model_id
                            post [] ;;
       ret (before
              ++ mkAgentResult a
                   ("Error: No configuration found for agent_id '" ++ a ++ "'.")
              :: after)%list) w.
Proof.
  intros Hc Hl Hv pre post w.
  rewrite manage_split.
  2: { rewrite Hc. destruct kvs; [discriminate | reflexivity]. }
  apply bind_ext. intros _ w0. apply bind_ext. intros before w1.
  unfold bind at 1.
  erewrite process_agent_missing; [| eassumption | now rewrite Hl].
  unfold bind.
  destruct (agents_loop _ _ _ _ post [] w1) as [[[after | e] w2] t2];
    reflexivity.
Qed.

Lemma falsy_config_counts_as_missing_witness :
  truthy (PDict []) = false
  /\ @manage_multi_agent_flow Scripted.env
       (Sample.coordinator_of
          (PDict [("x", PDict []); ("y", PDict [("model_id", PStr "m1")])]))
       "q" [] ["x"] "m2" []
     = (inl [mkAgentResult "x"
               "Error: No configuration found for agent_id 'x'."],
        [], [RegistryTest]).
Proof.
  split; [reflexivity |].
  rewrite (@falsy_config_counts_as_missing Scripted.env
             (Sample.coordinator_of
                (PDict [("x", PDict []);
                        ("y", PDict [("model_id", PStr "m1")])]))
             "q" [] "m2" _ "x" (PDict []) eq_refl eq_refl eq_refl [] []).
  reflexivity.
Defined.

(** X13: when a requested id is mapped to a truthy value that is not an
    object (a number, a string, a list, [true]), the dispatch raises and
    returns no result list at all, wherever the id stands in the request;
    the entries of the ids before it are lost with it. *)
Theorem ill_typed_config_aborts_dispatch {E : Env}
        (self : AgentCoordinator) (user_query : string)
        (chat_history : list pyval) (base_model_id : string)
        (kvs : list (string * pyval)) (a : string) (v : pyval) :
  agent_configs self = PDict kvs ->
  lookup a kvs = Some v ->
  truthy v = true ->
  is_dict v = false ->
  forall pre post w,
    exists e,
      value (manage_multi_agent_flow self user_query chat_history
                                     (pre ++ a :: post) base_model_id w)
      = inr e.
Proof.
  intros Hc Hl Hv Hd pre post w.
  rewrite manage_split.
  2: { rewrite Hc. destruct kvs; [discriminate | reflexivity]. }
  unfold bind at 1, emit. unfold bind at 1.
  destruct (agents_loop _ _ _ _ pre [] w) as [[[before | e] w1] t1].
  2: { now exists e. }
  unfold bind at 1. rewrite process_agent_plan. unfold agent_plan.
  rewrite Hc. simpl get. rewrite Hl, Hv. simpl negb. cbv iota.
  destruct v; try discriminate; simpl; eexists; reflexivity.
Qed.

Lemma ill_typed_config_aborts_dispatch_witness :
  truthy (PInt 5) = true
  /\ is_dict (PInt 5) = false
  /\ exists e,
       value (@manage_multi_agent_flow Scripted.env
                (Sample.coordinator_of
                   (PDict [("x", PDict [("system_prompt", PStr "P")]);
                           ("bad", PInt 5)]))
                "q" [] (["x"] ++ "bad" :: ["x"]) "m2"
                [inl (Scripted.completion "hello")])
       = inr e.
Proof.
  split; [reflexivity | split; [reflexivity |]].
  exact (@ill_typed_config_aborts_dispatch Scripted.env
           (Sample.coordinator_of
              (PDict [("x", PDict [("system_prompt", PStr "P")]);
                      ("bad", PInt 5)]))
           "q" [] "m2" _ "bad" (PInt 5) eq_refl eq_refl eq_refl eq_refl
           ["x"] ["x"] [inl (Scripted.completion "hello")]).
Defined.

(** X14: when the registry is truthy but not a mapping (the blob decoded
    to a non-empty list or string), every dispatch of at least one id
    raises [AttributeError] at the first lookup, before any backend
    call. *)
Theorem non_mapping_registry_raises {E : Env} (self : AgentCoordinator)
        (user_query : string) (chat_history : list pyval)
        (a : string) (agent_ids : list string) (base_model_id : string)
        (w : World) :
  truthy (agent_configs self) = true ->
  is_dict (agent_configs self) = false ->
  manage_multi_agent_flow self user_query chat_history (a :: agent_ids)
                          base_model_id w
  = (inr (PyExc "AttributeError"
                ("'" ++ type_name (agent_configs self)
                     ++ "' object has no attribute 'get'")),
     w, [RegistryTest]).
Proof.
  intros Ht Hd. unfold manage_multi_agent_flow. rewrite Ht. simpl negb.
  cbv iota. unfold bind at 1, emit. simpl agents_loop.
  unfold bind at 1. rewrite process_agent_plan. unfold agent_plan.
  destruct (agent_configs self); try discriminate; reflexivity.
Qed.

Lemma non_mapping_registry_raises_witness :
  truthy (PList [PStr "x"]) = true
  /\ is_dict (PList [PStr "x"]) = false
  /\ @manage_multi_agent_flow Scripted.env
       (Sample.coordinator_of (PList [PStr "x"])) "q" [] ["x"; "y"] "m2" []
     = (inr (PyExc "AttributeError" "'list' object has no attribute 'get'"),
        [], [RegistryTest]).
Proof.
  split; [reflexivity | split; [reflexivity |]].
  exact (@non_mapping_registry_raises Scripted.env
           (Sample.coordinator_of (PList [PStr "x"])) "q" [] "x" ["y"] "m2"
           [] eq_refl eq_refl).
Defined.

(** ** The entry point *)

Lemma all_str_map_PStr ids : all_str (map PStr ids) = Some ids.
Proof. induction ids as [| a ids IH]; simpl; [| rewrite IH]; reflexivity. Qed.

Lemma all_str_inv l ids : all_str l = Some ids -> l = map PStr ids.
Proof.
  revert ids. induction l as [| x l IH]; intros ids; simpl.
  - now intros [= <-].
  - destruct x; try discriminate.
    destruct (all_str l) as [ss |]; [| discriminate].
    intros [= <-]. simpl. now rewrite (IH ss).
Qed.

(** X15: the ids [pipe] runs are the [agent_ids] of the request body when
    that is a list of strings, taken as they are; when the key is absent,
    or its value is anything else (not a list, or a list with an item that
    is not a string), they are the two default ids. *)
Theorem agent_ids_selection (body : list (string * pyval)) :
  (forall ids,
     lookup "agent_ids" body = Some (PList (map PStr ids)) ->
     agent_ids_to_run body = ids)
  /\ (lookup "agent_ids" body = None ->
      agent_ids_to_run body = ["analyst_agent_v1"; "default_responder"])
  /\ (forall v,
        lookup "agent_ids" body = Some v ->
        (forall ids, v <> PList (map PStr ids)) ->
        agent_ids_to_run body = ["analyst_agent_v1"; "default_responder"]).
Proof.
  unfold agent_ids_to_run. split; [| split].
  - intros ids ->. simpl. now rewrite all_str_map_PStr.
  - now intros ->.
  - intros v -> Hv. destruct (list_of_str v) as [ids |] eqn:Hl; trivial.
    exfalso. apply (Hv ids). destruct v; try discriminate.
    simpl in Hl. f_equal. now apply all_str_inv.
Qed.

Lemma agent_ids_selection_witness :
  agent_ids_to_run [("agent_ids", PList [PStr "x"; PStr "x"])] = ["x"; "x"]
  /\ agent_ids_to_run [("stream", PBool false)]
     = ["analyst_agent_v1"; "default_responder"]
  /\ agent_ids_to_run [("agent_ids", PList [PStr "x"; PInt 7])]
     = ["analyst_agent_v1"; "default_responder"].
Proof.
  split; [| split].
  - exact (proj1 (agent_ids_selection
                    [("agent_ids", PList [PStr "x"; PStr "x"])])
                 ["x"; "x"] eq_refl).
  - exact (proj1 (proj2 (agent_ids_selection [("stream", PBool false)]))
                 eq_refl).
  - apply (proj2 (proj2 (agent_ids_selection
                           [("agent_ids", PList [PStr "x"; PInt 7])]))
                 (PList [PStr "x"; PInt 7]) eq_refl).
    intros [| a [| b ids]]; discriminate.
Defined.

Section PipeOutput.
Context {E : Env}.

Lemma process_agent_id self q h base a w r w' t :
  process_agent self q h base a w = (inl r, w', t) -> agent_id r = a.
Proof.
  rewrite process_agent_plan.
  destruct (agent_plan self q h base a) as [[[messages model_id] |] | e].
  - unfold bind.
    destruct (_call_llm self messages model_id w) as [[[s | e] w1] t1];
      [| discriminate].
    simpl. now intros [= <- _ _].
  - now intros [= <- _ _].
  - discriminate.
Qed.

Lemma agents_loop_ids self q h base ids w rs w' t :
  agents_loop self q h base ids [] w = (inl rs, w', t) ->
  map agent_id rs = ids.
Proof.
  revert w rs w' t. induction ids as [| a ids IH]; intros w rs w' t.
  - simpl. now intros [= <- _ _].
  - rewrite agents_loop_cons. unfold bind.
    destruct (process_agent self q h base a w) as [[[r | e] w1] t1] eqn:Hs;
      [| discriminate].
    destruct (agents_loop self q h base ids [] w1)
      as [[[rs' | e] w2] t2] eqn:Hl; [| discriminate].
    simpl. intros [= <- _ _]. simpl.
    now rewrite (process_agent_id _ _ _ _ _ _ Hs), (IH _ _ _ _ Hl).
Qed.

Lemma manage_ids self q h ids base w rs w' t :
  manage_multi_agent_flow self q h ids base w = (inl rs, w', t) ->
  map agent_id rs = ids.
Proof.
  unfold manage_multi_agent_flow, bind, emit.
  destruct (negb (truthy (agent_configs self))).
  - unfold ret. rewrite fold_left_snoc. intros [= <- _ _].
    rewrite map_map. apply map_id.
  - destruct (agents_loop self q h base ids [] w) as [[[rs' | e] w1] t1] eqn:Hl;
      [| discriminate].
    intros [= <- _ _]. eapply agents_loop_ids. eassumption.
Qed.

End PipeOutput.

(** X16: whenever [pipe] returns, the list it returns is not empty: it is
    the single "system_error" entry (no coordinator), the single
    "system_message" entry (no ids requested), or one entry per id selected
    by the request, in order. *)
Theorem pipe_never_returns_empty {E : Env} (self : Pipeline)
        (user_message model_id : string) (messages : list pyval)
        (body : list (string * pyval)) (w w' : World)
        (results : list AgentResult) (t : list event) :
  pipe self user_message model_id messages body w = (inl results, w', t) ->
  results <> []
  /\ (results = [mkAgentResult "system_error"
                   "Coordinator not initialized. Cannot process request."]
      \/ results = [mkAgentResult "system_message"
                      "No agents were specified to process this request."]
      \/ map agent_id results = agent_ids_to_run body).
Proof.
  unfold pipe. destruct (coordinator self) as [c |].
  - destruct (agent_ids_to_run body) as [| a ids] eqn:Hids.
    + intros [= <- _ _]. split; [discriminate | now right; left].
    + intros H. apply manage_ids in H. split.
      * intros ->. discriminate.
      * now right; right.
  - intros [= <- _ _]. split; [discriminate | now left].
Qed.

Lemma pipe_never_returns_empty_witness :
  [mkAgentResult "x" "hello"] <> []
  /\ ([mkAgentResult "x" "hello"]
      = [mkAgentResult "system_error"
           "Coordinator not initialized. Cannot process request."]
      \/ [mkAgentResult "x" "hello"]
         = [mkAgentResult "system_message"
              "No agents were specified to process this request."]
      \/ map agent_id [mkAgentResult "x" "hello"]
         = agent_ids_to_run [("agent_ids", PList [PStr "x"])]).
Proof.
  exact (@pipe_never_returns_empty Scripted.env
           (mkPipeline (Scripted.test_valves "{}")
                       (Some (Sample.coordinator_of Sample.registry_m1)))
           "q" "m2" [] [("agent_ids", PList [PStr "x"])]
           [inl (Scripted.completion "hello")] [] _ _ eq_refl).
Defined.

(** ** Construction and reload *)

Lemma len_unsized v : (exists e, len v = inr e) <-> unsized v = true.
Proof.
  destruct v; simpl; split; intros H; try reflexivity; try discriminate;
    try (eexists; reflexivity); destruct H; discriminate.
Qed.

(** X17: a pipeline is built without coordinator exactly when
    [json.loads] on its [AGENT_CONFIGS_JSON] returns [null], a boolean or
    a number, or raises an exception that is neither [JSONDecodeError] nor
    [AttributeError]; such a pipeline answers every request with the
    single "system_error" entry and touches neither the registry nor the
    backend.  Text on which [json.loads] raises [JSONDecodeError] does
    give a coordinator. *)
Theorem pipeline_without_coordinator {E : Env} (v : Valves) :
  (coordinator (Pipeline_init v) = None
   <-> (exists cfgs,
          json_loads (AGENT_CONFIGS_JSON v) = inl cfgs
          /\ unsized cfgs = true)
       \/ (exists cls msg,
             json_loads (AGENT_CONFIGS_JSON v) = inr (cls, msg)
             /\ decode_handled cls = false))
  /\ (coordinator (Pipeline_init v) = None ->
      forall user_message model_id messages body w,
        pipe (Pipeline_init v) user_message model_id messages body w
        = (inl [mkAgentResult "system_error"
                  "Coordinator not initialized. Cannot process request."],
           w, [])).
Proof.
  split.
  - unfold Pipeline_init, AgentCoordinator_init. simpl.
    destruct (json_loads (AGENT_CONFIGS_JSON v)) as [cfgs | [cls msg]].
    + destruct (len cfgs) as [n | e] eqn:Hl; split.
      * discriminate.
      * intros [(cfgs' & [= <-] & Hu) | (cls & msg & Hj & _)];
          [| discriminate].
        apply len_unsized in Hu. destruct Hu as [e He]. congruence.
      * intros _. left. exists cfgs. split; trivial.
        apply len_unsized. eauto.
      * reflexivity.
    + destruct (decode_handled cls) eqn:Hh; split.
      * discriminate.
      * intros [(cfgs & Hj & _) | (cls' & msg' & [= <- <-] & Hh')];
          [discriminate | congruence].
      * intros _. right. now exists cls, msg.
      * reflexivity.
  - intros Hc user_message model_id messages body w.
    now apply no_coordinator_system_error.
Qed.

Lemma pipeline_without_coordinator_witness :
  (coordinator (@Pipeline_init Scripted.env (Scripted.test_valves "5"))
   = None
   /\ @pipe Scripted.env
        (@Pipeline_init Scripted.env (Scripted.test_valves "5"))
        "q" "m2" [] [("agent_ids", PList [PStr "x"])]
        [inl (Scripted.completion "hello")]
      = (inl [mkAgentResult "system_error"
                "Coordinator not initialized. Cannot process request."],
         [inl (Scripted.completion "hello")], []))
  /\ (coordinator (@Pipeline_init Scripted.env
                     (Scripted.test_valves Scripted.long_int_blob))
      = None
      /\ @pipe Scripted.env
           (@Pipeline_init Scripted.env
              (Scripted.test_valves Scripted.long_int_blob))
           "q" "m2" [] [("agent_ids", PList [PStr "x"])]
           [inl (Scripted.completion "hello")]
         = (inl [mkAgentResult "system_error"
                   "Coordinator not initialized. Cannot process request."],
            [inl (Scripted.completion "hello")], [])).
Proof.
  assert (H5 : coordinator (@Pipeline_init Scripted.env
                              (Scripted.test_valves "5")) = None)
    by reflexivity.
  assert (HL : coordinator (@Pipeline_init Scripted.env
                              (Scripted.test_valves Scripted.long_int_blob))
               = None)
    by (vm_compute; reflexivity).
  split; (split; [assumption |]).
  - exact (proj2 (@pipeline_without_coordinator Scripted.env
                    (Scripted.test_valves "5"))
                 H5 "q" "m2" [] [("agent_ids", PList [PStr "x"])]
                 [inl (Scripted.completion "hello")]).
  - exact (proj2 (@pipeline_without_coordinator Scripted.env
                    (Scripted.test_valves Scripted.long_int_blob))
                 HL "q" "m2" [] [("agent_ids", PList [PStr "x"])]
                 [inl (Scripted.completion "hello")]).
Defined.

(** X18: a reload raises exactly when the constructor would on the same
    valves, and the same exception; when the constructor would succeed
    the registry afterwards is the one it would build.  When [json.loads]
    returns, the registry is replaced by the value even if the [len]
    that follows raises; when [json.loads] raises an exception that no
    handler catches, the pipeline is left as it was. *)
Theorem reload_agrees_with_load {E : Env} (self : Pipeline)
        (c : AgentCoordinator) :
  coordinator self = Some c ->
  snd (on_valves_updated self)
  = match AgentCoordinator_init (pipeline_valves self) with
    | inl _ => inl tt
    | inr e => inr e
    end
  /\ (forall c0,
        AgentCoordinator_init (pipeline_valves self) = inl c0 ->
        fst (on_valves_updated self)
        = mkPipeline (pipeline_valves self)
                     (Some (mkAgentCoordinator (valves c)
                                               (agent_configs c0))))
  /\ (forall cfgs,
        json_loads (AGENT_CONFIGS_JSON (pipeline_valves self)) = inl cfgs ->
        fst (on_valves_updated self)
        = mkPipeline (pipeline_valves self)
                     (Some (mkAgentCoordinator (valves c) cfgs)))
  /\ (forall cls msg,
        json_loads (AGENT_CONFIGS_JSON (pipeline_valves self))
        = inr (cls, msg) ->
        decode_handled cls = false ->
        on_valves_updated self = (self, inr (PyExc cls msg))).
Proof.
  intros Hc. unfold on_valves_updated, AgentCoordinator_init. rewrite Hc.
  destruct (json_loads (AGENT_CONFIGS_JSON (pipeline_valves self)))
    as [cfgs | [cls msg]].
  - destruct (len cfgs) as [n | e]; simpl; repeat split;
      try discriminate.
    + now intros c0 [= <-].
    + now intros cfgs' [= <-].
    + now intros cfgs' [= <-].
  - destruct (decode_handled cls) eqn:Hh; simpl; repeat split;
      try discriminate.
    + now intros c0 [= <-].
    + intros cls' msg' [= <- <-] Hh'. congruence.
    + now intros cls' msg' [= <- <-] _.
Qed.

Lemma reload_agrees_with_load_witness :
  snd (@on_valves_updated Scripted.env
         (mkPipeline (Scripted.test_valves "5")
                     (Some (Sample.coordinator_of Sample.registry_m1))))
  = inr (PyExc "TypeError" "object of type 'int' has no len()")
  /\ snd (@on_valves_updated Scripted.env
            (mkPipeline (Scripted.test_valves Scripted.blob_a)
                        (Some (Sample.coordinator_of Sample.registry_m1))))
     = inl tt
  /\ @on_valves_updated Scripted.env Sample.reloaded_with_long_int
     = (Sample.reloaded_with_long_int,
        inr (PyExc "ValueError" Scripted.digit_limit_message)).
Proof.
  split; [| split].
  - exact (proj1 (@reload_agrees_with_load Scripted.env
                    (mkPipeline (Scripted.test_valves "5")
                       (Some (Sample.coordinator_of Sample.registry_m1)))
                    _ eq_refl)).
  - exact (proj1 (@reload_agrees_with_load Scripted.env
                    (mkPipeline (Scripted.test_valves Scripted.blob_a)
                       (Some (Sample.coordinator_of Sample.registry_m1)))
                    _ eq_refl)).
  - apply (proj2 (proj2 (proj2
             (@reload_agrees_with_load Scripted.env
                Sample.reloaded_with_long_int _ eq_refl)))).
    + vm_compute. reflexivity.
    + reflexivity.
Defined.

(** X19: reloading twice without a change of the valves is the same as
    reloading once: same pipeline afterwards, same outcome, also when the
    reload raises. *)
Theorem reload_is_idempotent {E : Env} (self : Pipeline) :
  on_valves_updated (fst (on_valves_updated self)) = on_valves_updated self.
Proof.
  unfold on_valves_updated.
  destruct (coordinator self) as [c |] eqn:Hc.
  - destruct (json_loads (AGENT_CONFIGS_JSON (pipeline_valves self)))
      as [cfgs | [cls msg]] eqn:Hj.
    + destruct (len cfgs) as [n | e] eqn:Hl; simpl; rewrite Hj, Hl;
        reflexivity.
    + destruct (decode_handled cls) eqn:Hh; simpl.
      * rewrite Hj, Hh. reflexivity.
      * rewrite Hc, Hj, Hh. reflexivity.
  - simpl. rewrite Hc. reflexivity.
Qed.

(** X20: when [json.loads] raises [JSONDecodeError] on the blob of the
    valves (or any exception that a handler catches), the pipeline just
    built from them, and any pipeline with a coordinator just reloaded
    from them, answers a request that selects at least one id with the
    "configurations not loaded" entry for each selected id, in order, and
    makes no backend call. *)
Theorem failed_decode_answers_not_loaded {E : Env} (v : Valves)
        (cls msg : string)
        (user_message model_id : string) (messages : list pyval)
        (body : list (string * pyval)) (a : string) (ids : list string)
        (w : World) :
  json_loads (AGENT_CONFIGS_JSON v) = inr (cls, msg) ->
  decode_handled cls = true ->
  agent_ids_to_run body = a :: ids ->
  pipe (Pipeline_init v) user_message model_id messages body w
  = (inl (map not_loaded (a :: ids)), w, [RegistryTest])
  /\ forall self c,
       coordinator self = Some c ->
       pipeline_valves self = v ->
       pipe (fst (on_valves_updated self)) user_message model_id messages
            body w
       = (inl (map not_loaded (a :: ids)), w, [RegistryTest]).
Proof.
  intros Hj Hh Hids. split.
  - unfold pipe, Pipeline_init, AgentCoordinator_init. simpl.
    rewrite Hj, Hh, Hids. unfold manage_multi_agent_flow, bind, emit, ret.
    simpl. now rewrite fold_left_snoc.
  - intros self c Hc <-. unfold on_valves_updated. rewrite Hc, Hj, Hh.
    unfold pipe. simpl. rewrite Hids.
    unfold manage_multi_agent_flow, bind, emit, ret.
    simpl. now rewrite fold_left_snoc.
Qed.

Lemma failed_decode_answers_not_loaded_witness :
  @json_loads Scripted.env "not json"
  = inr ("JSONDecodeError", "Expecting value: line 1 column 1 (char 0)")
  /\ decode_handled "JSONDecodeError" = true
  /\ @pipe Scripted.env
       (@Pipeline_init Scripted.env (Scripted.test_valves "not json"))
       "q" "m2" [] [("agent_ids", PList [PStr "a"; PStr "b"])]
       [inl (Scripted.completion "hello")]
     = (inl [not_loaded "a"; not_loaded "b"],
        [inl (Scripted.completion "hello")], [RegistryTest])
  /\ @pipe Scripted.env
       (fst (@on_valves_updated Scripted.env Sample.reloaded_with_garbage))
       "q" "m2" [] [("agent_ids", PList [PStr "a"; PStr "b"])]
       [inl (Scripted.completion "hello")]
     = (inl [not_loaded "a"; not_loaded "b"],
        [inl (Scripted.completion "hello")], [RegistryTest]).
Proof.
  split; [reflexivity | split; [reflexivity |]].
  destruct (@failed_decode_answers_not_loaded Scripted.env
              (Scripted.test_valves "not json") _ _ "q" "m2" []
              [("agent_ids", PList [PStr "a"; PStr "b"])] "a" ["b"]
              [inl (Scripted.completion "hello")] eq_refl eq_refl eq_refl)
    as [H1 H2].
  split; [exact H1 |].
  exact (H2 Sample.reloaded_with_garbage _ eq_refl eq_refl).
Defined.
